(** * AgriResQ: the weather-claim validation engine

    A shallow embedding of the two validator variants of the repository,

    - [scripts/machine-learning-model/src/a.py] (the enhanced validator,
      module [Enhanced] below), and
    - [scripts/machine-learning-model/src/WeatherClaimValidator.py] (the
      earlier validator, modules [Earlier] and [Earlier64] below),

    of the claim extractor [claim_processing.py] and of the weather API
    under [scripts/api], together with the properties of the
    claim-validation engine that are stated about them.

    Modelling conventions.

    - Python [str] values are byte strings ([string]); [str.lower] acts on
      the ASCII letters, which is all that matters for the comparisons
      against the lower-case ASCII literals of the source.
    - A pandas [Series] is a [list]; a [DataFrame] is a list of rows.
    - In the modules [Earlier] and [Enhanced] the readings are exact
      rationals ([Q]) and the missing value NaN of pandas is [None] of an
      option type: they serve the properties that rest on the control flow,
      on the requests sent, on strings and on counts, not on how the
      arithmetic rounds.
    - In the module [Earlier64] the readings are binary64 numbers and the
      pandas operations round as NumPy does: it serves the properties of
      the rainfall anomaly, which do rest on rounding.
    - [claim_details] is a dictionary: its string-valued entries are a
      finite map ([gmap string string]) and the integer entry ['Days'] is an
      optional [Z].
    - The HTTP provider is an oracle [http_get]; every request issued is
      appended to a log, which is the state threaded through the engine.
    - The class of [a.py] calls two methods that it does not define,
      [fetch_historical_weather] and [_count_consecutive_low_rainfall_days];
      it has no base class, so looking either up raises [AttributeError],
      and that is how the module [Enhanced] has them. *)

From Stdlib Require Import ZArith QArith Qround List String Ascii Bool Lia.
From Stdlib Require Import DecimalString Lqa.
From Stdlib Require SpecFloat.
From stdpp Require Import base option list gmap strings.

Import ListNotations.
Local Open Scope string_scope.
Local Open Scope Q_scope.

(** ** Python strings *)

Module PyStr.

(** [c.lower()] on one ASCII character. *)
Definition lower_ascii (c : ascii) : ascii :=
  let n := nat_of_ascii c in
  if ((65 <=? n) && (n <=? 90))%nat then ascii_of_nat (n + 32) else c.

(** [s.lower()] *)
Fixpoint lower (s : string) : string :=
  match s with
  | EmptyString => EmptyString
  | String c s' => String (lower_ascii c) (lower s')
  end.

(** [s == t] *)
Definition eqb (s t : string) : bool := String.eqb s t.

(** [s in l] for a list of strings [l]. *)
Definition in_list (s : string) (l : list string) : bool :=
  existsb (eqb s) l.

(** [s.split(sep)[0]] for a non-empty separator: the part of [s] before the
    first occurrence of [sep], all of [s] when [sep] does not occur. *)
Fixpoint split_head (sep s : string) : string :=
  match s with
  | EmptyString => EmptyString
  | String c s' =>
      if String.prefix sep s then EmptyString else String c (split_head sep s')
  end.

(** ASCII white space, as removed by [str.strip()]. *)
Definition is_space (c : ascii) : bool :=
  let n := nat_of_ascii c in
  ((9 <=? n) && (n <=? 13) || (28 <=? n) && (n <=? 32))%nat.

Fixpoint lstrip (s : string) : string :=
  match s with
  | EmptyString => EmptyString
  | String c s' => if is_space c then lstrip s' else s
  end.

Fixpoint rstrip (s : string) : string :=
  match s with
  | EmptyString => EmptyString
  | String c s' =>
      match rstrip s' with
      | EmptyString => if is_space c then EmptyString else String c EmptyString
      | r => String c r
      end
  end.

(** [s.strip()] *)
Definition strip (s : string) : string := rstrip (lstrip s).

(** [str(n)] for an integer [n]. *)
Definition of_int (n : Z) : string := NilZero.string_of_int (Z.to_int n).

End PyStr.

(** ** Numbers *)

Module Num.

(** [x < y] and [x > y] on floats. *)
Definition ltb (x y : Q) : bool := negb (Qle_bool y x).
Definition gtb (x y : Q) : bool := ltb y x.

(** Floats that may be NaN ([None]).  Arithmetic propagates NaN and every
    comparison with NaN is false. *)
Definition nfloat := option Q.

Definition nmul (x : nfloat) (y : Q) : nfloat := option_map (fun a => a * y) x.
Definition ndiv (x : nfloat) (y : Q) : nfloat := option_map (fun a => a / y) x.

Definition nadd (x y : nfloat) : nfloat :=
  match x, y with Some a, Some b => Some (a + b) | _, _ => None end.

Definition nsub (x y : nfloat) : nfloat :=
  match x, y with Some a, Some b => Some (a - b) | _, _ => None end.

Definition ngtb (x y : nfloat) : bool :=
  match x, y with Some a, Some b => gtb a b | _, _ => false end.

(** [x >= y] for an integer [x] that may be NaN. *)
Definition ngeb_nat (x : option nat) (y : nat) : bool :=
  match x with Some n => (y <=? n)%nat | None => false end.

(** The result of a NumPy float division, which may be infinite: dividing
    by zero does not raise, it yields NaN for 0/0 and a signed infinity
    otherwise. *)
Inductive npfloat : Type :=
  | Fin (q : Q)
  | PosInf
  | NegInf
  | NaN.

Definition np_div (x y : nfloat) : npfloat :=
  match x, y with
  | Some a, Some b =>
      if Qeq_bool b 0 then
        if Qeq_bool a 0 then NaN else if ltb 0 a then PosInf else NegInf
      else Fin (a / b)
  | _, _ => NaN
  end.

(** [x > y] for such a quotient. *)
Definition np_gtb (x : npfloat) (y : Q) : bool :=
  match x with
  | Fin q => gtb q y
  | PosInf => true
  | NegInf | NaN => false
  end.

End Num.

(** ** Binary64 numbers *)

Module F64.

(** The doubles of Python and NumPy: IEEE 754 binary64, given by the
    standard library's [spec_float] and its operations, which round to
    nearest, ties to even. *)
Definition prec : Z := 53.
Definition emax : Z := 1024.

Definition float : Type := SpecFloat.spec_float.

Definition nan : float := SpecFloat.S754_nan.
Definition zero : float := SpecFloat.S754_zero false.
Definition infinity : float := SpecFloat.S754_infinity false.

Definition add : float -> float -> float := SpecFloat.SFadd prec emax.
Definition sub : float -> float -> float := SpecFloat.SFsub prec emax.
Definition mul : float -> float -> float := SpecFloat.SFmul prec emax.
Definition div : float -> float -> float := SpecFloat.SFdiv prec emax.
Definition sqrt : float -> float := SpecFloat.SFsqrt prec emax.

(** [x < y], [x <= y] and [x > y]: false as soon as one side is NaN. *)
Definition ltb : float -> float -> bool := SpecFloat.SFltb.
Definition leb : float -> float -> bool := SpecFloat.SFleb.
Definition gtb (x y : float) : bool := ltb y x.

Definition is_nan (x : float) : bool :=
  match x with SpecFloat.S754_nan => true | _ => false end.

(** An integer as a double. *)
Definition of_Z (n : Z) : float :=
  SpecFloat.binary_normalize prec emax n 0 false.

Definition of_nat (n : nat) : float := of_Z (Z.of_nat n).

(** [floor(x)] of a finite double, as an integer. *)
Definition floor (x : float) : Z :=
  match x with
  | SpecFloat.S754_finite s m e =>
      Z.shiftl (SpecFloat.cond_Zopp s (Zpos m)) e
  | _ => 0%Z
  end.

(** [x] is a double, finite and in canonical form, and no double is nearer
    to the fraction [num / den] than [x] is: the distance between them is
    at most half the distance between [x] and its neighbours. *)
Definition nearest (num den : Z) (x : float) : bool :=
  SpecFloat.valid_binary prec emax x
  && match x with
     | SpecFloat.S754_finite s m e =>
         let up := (2 ^ Z.max e 0)%Z in
         let down := (2 ^ Z.max (- e) 0)%Z in
         (0 <? den)%Z
         && (2 * Z.abs (SpecFloat.cond_Zopp s (Zpos m) * up * den - num * down)
             <=? up * den)%Z
     | _ => false
     end.

(** [x] is NaN, or a zero, an infinity or a finite number of sign [s]
    ([true] for minus). *)
Definition signed_or_nan (s : bool) (x : float) : Prop :=
  match x with
  | SpecFloat.S754_nan => True
  | SpecFloat.S754_zero s' | SpecFloat.S754_infinity s'
  | SpecFloat.S754_finite s' _ _ => s' = s
  end.

(** The doubles that Python reads from the literals [0.1], [0.95], [0.9],
    [0.5] and [1e-147]. *)
Definition tenth : float := SpecFloat.S754_finite false 7205759403792794 (-56).
Definition q95 : float := SpecFloat.S754_finite false 8556839292003942 (-53).
Definition q90 : float := SpecFloat.S754_finite false 8106479329266893 (-53).
Definition half : float := SpecFloat.S754_finite false 4503599627370496 (-53).
Definition tiny : float := SpecFloat.S754_finite false 7198262071269114 (-541).

End F64.

(** ** The pandas operations used by the validators *)

Module Pandas.

(** [Series.sum()] *)
Definition sum (l : list Q) : Q := fold_right Qplus 0 l.

(** [len(series)] as a float. *)
Definition count (l : list Q) : Q := inject_Z (Z.of_nat (length l)).

(** [Series.mean()]: NaN on the empty series. *)
Definition mean (l : list Q) : option Q :=
  match l with
  | [] => None
  | _ :: _ => Some (sum l / count l)
  end.

Definition qmax (x y : Q) : Q := if Qle_bool x y then y else x.
Definition qmin (x y : Q) : Q := if Qle_bool x y then x else y.

(** [Series.max()] and [Series.min()]: NaN on the empty series. *)
Definition max (l : list Q) : option Q :=
  match l with
  | [] => None
  | x :: l' => Some (fold_right qmax x l')
  end.

Definition min (l : list Q) : option Q :=
  match l with
  | [] => None
  | x :: l' => Some (fold_right qmin x l')
  end.

(** [Series.max()] on an integer series. *)
Definition max_nat (l : list nat) : option nat :=
  match l with
  | [] => None
  | x :: l' => Some (fold_right Nat.max x l')
  end.

(** Ascending sort, as used by [quantile] and [median]. *)
Fixpoint insert_sorted (x : Q) (l : list Q) : list Q :=
  match l with
  | [] => [x]
  | y :: l' => if Qle_bool x y then x :: l else y :: insert_sorted x l'
  end.

Definition sort (l : list Q) : list Q := fold_right insert_sorted [] l.

(** [Series.quantile(q)] with the default linear interpolation: the value
    at the fractional position [q * (n - 1)] of the sorted series. *)
Definition quantile (q : Q) (l : list Q) : option Q :=
  match l with
  | [] => None
  | _ :: _ =>
      let s := sort l in
      let pos := q * inject_Z (Z.of_nat (length l - 1)) in
      let lo := Z.to_nat (Qfloor pos) in
      let frac := pos - inject_Z (Qfloor pos) in
      let a := nth lo s 0 in
      let b := nth (S lo) s a in
      Some (a + (b - a) * frac)
  end.

(** [Series.median()] *)
Definition median (l : list Q) : option Q := quantile 0.5 l.

(** Sample variance (one delta degree of freedom, the pandas default):
    NaN when fewer than two values are present. *)
Definition var (l : list Q) : option Q :=
  match l, mean l with
  | _ :: _ :: _, Some m =>
      Some (sum (map (fun x => (x - m) * (x - m)) l)
            / inject_Z (Z.of_nat (length l - 1)))
  | _, _ => None
  end.

(** [Series.std()], for a given square root. *)
Definition std (sqrt : Q -> Q) (l : list Q) : option Q :=
  option_map sqrt (var l).

(** [Series.mean()] on a series with missing values: NaN entries are
    skipped, and the mean of no value at all is NaN. *)
Definition nanmean (l : list (option Q)) : option Q := mean (omap id l).

(** [Series.diff()]: the first entry is NaN. *)
Fixpoint diff_from (prev : Q) (l : list Q) : list (option Q) :=
  match l with
  | [] => []
  | x :: l' => Some (x - prev) :: diff_from x l'
  end.

Definition diff (l : list Q) : list (option Q) :=
  match l with
  | [] => []
  | x :: l' => None :: diff_from x l'
  end.

(** [Series.rolling(window=w).mean()]: entry [i] is the mean of the [w]
    values ending at [i]; the first [w - 1] entries are NaN. *)
Definition rolling_mean (w : nat) (l : list Q) : list (option Q) :=
  map (fun i => if (S i <? w)%nat then None
                else mean (firstn w (skipn (S i - w) l)))
      (seq 0 (length l)).

(** [scalar - series], where the scalar may be NaN. *)
Definition rsub (x : option Q) (l : list (option Q)) : list (option Q) :=
  map (fun y => match x, y with
                | Some a, Some b => Some (a - b)
                | _, _ => None
                end) l.

(** [Series.shift()] on a boolean series: the first entry is NaN. *)
Definition shift (l : list bool) : list (option bool) :=
  match l with
  | [] => []
  | _ :: _ => None :: map Some (removelast l)
  end.

(** [series != shifted], element by element; a value never equals NaN. *)
Fixpoint ne (l : list bool) (s : list (option bool)) : list bool :=
  match l, s with
  | b :: l', o :: s' =>
      match o with
      | None => true
      | Some b' => xorb b b'
      end :: ne l' s'
  | _, _ => []
  end.

(** [x != x.shift()] past the first entry: whether an entry differs from
    the one before it. *)
Fixpoint changes (prev : bool) (l : list bool) : list bool :=
  match l with
  | [] => []
  | b :: l' => xorb b prev :: changes b l'
  end.

(** [Series.cumsum()] on a boolean series. *)
Fixpoint cumsum_from (acc : nat) (l : list bool) : list nat :=
  match l with
  | [] => []
  | b :: l' =>
      let acc' := (acc + if b then 1 else 0)%nat in
      acc' :: cumsum_from acc' l'
  end.

Definition cumsum (l : list bool) : list nat := cumsum_from 0 l.

(** [values.groupby(keys).sum()]: one entry per distinct key, in ascending
    key order, holding the sum of the values carrying that key. *)
Section GroupBy.
Context {K V : Type} (cmp : K -> K -> comparison) (add : V -> V -> V).

Fixpoint insert_add (k : K) (v : V) (acc : list (K * V)) : list (K * V) :=
  match acc with
  | [] => [(k, v)]
  | (k', v') :: acc' =>
      match cmp k k' with
      | Eq => (k', add v v') :: acc'
      | Lt => (k, v) :: acc
      | Gt => (k', v') :: insert_add k v acc'
      end
  end.

Fixpoint groupby_sum (keys : list K) (vals : list V) : list (K * V) :=
  match keys, vals with
  | k :: ks, v :: vs => insert_add k v (groupby_sum ks vs)
  | _, _ => []
  end.
End GroupBy.

(** The number of [True] entries of a boolean value. *)
Definition nat_of_bool (b : bool) : nat := if b then 1 else 0.

End Pandas.

(** ** The pandas operations on binary64 series *)

Module Pandas64.

(** The values of a series that are not NaN: the reductions of pandas skip
    the others. *)
Definition dropna (l : list F64.float) : list F64.float :=
  List.filter (fun x => negb (F64.is_nan x)) l.

(** The sum of the values from left to right, as NumPy and bottleneck add
    up a series of fewer than eight values. *)
Definition total (l : list F64.float) : F64.float :=
  fold_left F64.add l F64.zero.

(** [Series.sum()] *)
Definition sum (l : list F64.float) : F64.float := total (dropna l).

(** The number of values that are not NaN, as a double. *)
Definition count (l : list F64.float) : F64.float :=
  F64.of_nat (length (dropna l)).

(** [Series.mean()]: the sum divided by the count, NaN when no value is
    left. *)
Definition mean (l : list F64.float) : F64.float :=
  match dropna l with
  | [] => F64.nan
  | _ :: _ => F64.div (sum l) (count l)
  end.

Definition fmax (a b : F64.float) : F64.float := if F64.ltb a b then b else a.
Definition fmin (a b : F64.float) : F64.float := if F64.ltb b a then b else a.

(** [Series.max()] and [Series.min()] *)
Definition max (l : list F64.float) : F64.float :=
  match dropna l with
  | [] => F64.nan
  | x :: l' => fold_left fmax l' x
  end.

Definition min (l : list F64.float) : F64.float :=
  match dropna l with
  | [] => F64.nan
  | x :: l' => fold_left fmin l' x
  end.

(** [Series.var()], with one delta degree of freedom: NaN when fewer than
    two values are left; otherwise the mean is taken first, then the sum of
    the squared deviations from it is divided by the count less one. *)
Definition var (l : list F64.float) : F64.float :=
  let values := dropna l in
  if (length values <=? 1)%nat then F64.nan
  else
    let avg := F64.div (total values) (F64.of_nat (length values)) in
    let sqr := map (fun x => let d := F64.sub avg x in F64.mul d d) values in
    F64.div (total sqr) (F64.of_nat (length values - 1)).

(** [Series.std()] *)
Definition std (l : list F64.float) : F64.float := F64.sqrt (var l).

(** Ascending sort. *)
Fixpoint insert_sorted (x : F64.float) (l : list F64.float)
    : list F64.float :=
  match l with
  | [] => [x]
  | y :: l' => if F64.ltb y x then y :: insert_sorted x l' else x :: l
  end.

Definition sort (l : list F64.float) : list F64.float :=
  fold_right insert_sorted [] l.

(** NumPy's linear interpolation between [a] and [b] at [t]: from [a]
    upwards when [t] is below one half, from [b] downwards otherwise. *)
Definition lerp (a b t : F64.float) : F64.float :=
  let diff_b_a := F64.sub b a in
  if F64.leb F64.half t then
    F64.sub b (F64.mul diff_b_a (F64.sub (F64.of_nat 1) t))
  else F64.add a (F64.mul diff_b_a t).

(** [Series.quantile(q)] with the default linear interpolation: pandas
    hands [q * 100] to [numpy.percentile], which divides by 100 again,
    takes [(n - 1) * q] as the position in the sorted values and
    interpolates between its two neighbours; at the upper end both
    neighbours are the last value, found at index -1. *)
Definition quantile (q : F64.float) (l : list F64.float) : F64.float :=
  match sort (dropna l) with
  | [] => F64.nan
  | (first :: _) as arr =>
      let n := length arr in
      let q := F64.div (F64.mul q (F64.of_nat 100)) (F64.of_nat 100) in
      let virtual_index := F64.mul (F64.of_nat (n - 1)) q in
      if F64.leb (F64.of_nat (n - 1)) virtual_index then
        let last := nth (n - 1) arr first in
        lerp last last (F64.sub virtual_index (F64.of_Z (-1)))
      else if F64.ltb virtual_index F64.zero then
        lerp first first virtual_index
      else
        let previous := Z.to_nat (F64.floor virtual_index) in
        lerp (nth previous arr first) (nth (S previous) arr first)
             (F64.sub virtual_index (F64.of_nat previous))
  end.

(** [Series.median()]: the mean of the middle value, or of the two middle
    values, of the sorted values. *)
Definition median (l : list F64.float) : F64.float :=
  match sort (dropna l) with
  | [] => F64.nan
  | (first :: _) as arr =>
      let n := length arr in
      let index := (n / 2)%nat in
      if Nat.odd n then F64.div (nth index arr first) (F64.of_nat 1)
      else F64.div (F64.add (nth (index - 1) arr first) (nth index arr first))
                   (F64.of_nat 2)
  end.

(** [Series.diff()]: the first entry is NaN. *)
Fixpoint diff_from (prev : F64.float) (l : list F64.float)
    : list F64.float :=
  match l with
  | [] => []
  | x :: l' => F64.sub x prev :: diff_from x l'
  end.

Definition diff (l : list F64.float) : list F64.float :=
  match l with
  | [] => []
  | x :: l' => F64.nan :: diff_from x l'
  end.

End Pandas64.

(** ** Maximal runs of a boolean sequence *)

Module Runs.

(** The partition of a sequence into maximal runs of identical value, each
    run given by its value and its length. *)
Fixpoint runs (l : list bool) : list (bool * nat) :=
  match l with
  | [] => []
  | b :: l' =>
      match runs l' with
      | [] => [(b, 1%nat)]
      | (b', n) :: rs =>
          if Bool.eqb b b' then (b', S n) :: rs else (b, 1%nat) :: (b', n) :: rs
      end
  end.

(** The lengths of the runs of [true]. *)
Definition true_run_lengths (l : list bool) : list nat :=
  map snd (filter (fun r : bool * nat => fst r) (runs l)).

(** The length of the longest run of [true]; 0 when there is none. *)
Definition longest_true_run (l : list bool) : nat :=
  fold_right Nat.max 0%nat (true_run_lengths l).

(** The runs are non-empty and neighbouring runs differ in value, so each
    run is maximal. *)
Fixpoint maximal_runs (rs : list (bool * nat)) : Prop :=
  match rs with
  | [] => True
  | (b, n) :: rs' =>
      (0 < n)%nat
      /\ match rs' with
         | [] => True
         | (b', _) :: _ => b <> b'
         end
      /\ maximal_runs rs'
  end.

(** What a run adds to the sum of its group: its length when it is a run of
    [true], nothing otherwise. *)
Definition run_sum (r : bool * nat) : nat := if fst r then snd r else 0%nat.

(** The group sums of the runs, keyed from [k] on. *)
Definition keyed_runs (k : nat) (rs : list (bool * nat)) : list (nat * nat) :=
  combine (seq k (length rs)) (map run_sum rs).

(** The number of [true] entries of a boolean series. *)
Definition count_true (l : list bool) : nat :=
  length (filter (fun b : bool => b) l).

End Runs.

(** ** Effects: the weather provider and the request log *)

Module Eff.

(** The query sent to the provider by [requests.get]. *)
Record request : Type := mkRequest {
  req_location : string;
  req_date : string;
  req_hour : Z
}.

(** What one call to the provider can come to.  A JSON object is given by
    its entries, each value in its [str()] rendering, which is all the
    validators read. *)
Inductive response : Type :=
  | ConnectionFailed                        (* [requests.get] raises *)
  | BadStatus                               (* [raise_for_status] raises *)
  | BadBody                                 (* [response.json()] raises *)
  | JsonOther                               (* a JSON value, not an object *)
  | JsonObject (data : gmap string string).

(** The exceptions that leave the validators. *)
Inductive exn : Type :=
  | ValueError
  | KeyError
  | AttributeError
  | UnboundLocalError.

Inductive res (A : Type) : Type :=
  | Ok (a : A)
  | Raise (e : exn).
Arguments Ok {A} a.
Arguments Raise {A} e.

(** A computation that may issue requests and may raise: the state is the
    log of the requests issued so far. *)
Definition M (A : Type) : Type := list request -> res A * list request.

Definition ret {A} (a : A) : M A := fun log => (Ok a, log).

Definition raise {A} (e : exn) : M A := fun log => (Raise e, log).

Definition bind {A B} (m : M A) (k : A -> M B) : M B :=
  fun log =>
    match m log with
    | (Ok a, log') => k a log'
    | (Raise e, log') => (Raise e, log')
    end.

(** One request to the provider [http_get], recorded in the log. *)
Definition get (http_get : request -> response) (r : request) : M response :=
  fun log => (Ok (http_get r), (log ++ [r])%list).

(** The requests a computation adds to an empty log. *)
Definition calls {A} (m : M A) : list request := snd (m []).

End Eff.

Notation "x <- m ;; k" := (Eff.bind m (fun x => k))
  (at level 100, m at next level, right associativity).

(** ** Observations and rows of the historical window *)

(** The dictionary returned by [get_weather_data]: the three parsed
    readings.  (The enhanced validator also echoes its [location] and [date]
    arguments in it, the earlier one keeps the other entries of the payload;
    neither is read again.) *)
Record observation : Type := mkObservation {
  obs_rainfall : Q;
  obs_temperature : Q;
  obs_humidity : Q
}.

(** One row of the [DataFrame] of daily observations: the readings and the
    [date] column set by the window builder. *)
Record row : Type := mkRow {
  rainfall : Q;
  temperature : Q;
  humidity : Q;
  date : string
}.

(** ** The earlier validator: [WeatherClaimValidator.py] *)

Module Earlier.

Section Validator.
(** The provider, Python's [float()] on strings ([None] when it raises
    [ValueError]), [datetime.strptime(s, '%Y-%m-%d')] as a day number
    ([None] when it raises [ValueError]), [strftime('%Y-%m-%d')] on day
    numbers, and NumPy's square root. *)
Variable http_get : Eff.request -> Eff.response.
Variable py_float : string -> option Q.
Variable strptime : string -> option Z.
Variable strftime : Z -> string.
Variable sqrt : Q -> Q.

(** [data.get(key, '0')] followed by [str(...)]. *)
Definition get_field (data : gmap string string) (key : string) : string :=
  default "0" (data !! key).

(** [float(str(v).split(unit)[0].strip())] *)
Definition clean (v unit : string) : option Q :=
  py_float (PyStr.strip (PyStr.split_head unit v)).

(** The degree token of this file: the two characters U+00C2 U+00B0. *)
Definition degree_token : string :=
  String "195" (String "130" (String "194" (String "176" EmptyString))).

(** [get_weather_data]: [None] on a transport error and on a value that
    does not parse. *)
Definition get_weather_data (location date : string)
    : Eff.M (option observation) :=
  resp <- Eff.get http_get (Eff.mkRequest location date 12) ;;
  match resp with
  | Eff.ConnectionFailed | Eff.BadStatus | Eff.BadBody => Eff.ret None
  | Eff.JsonOther => Eff.raise Eff.AttributeError
  | Eff.JsonObject data =>
      match clean (get_field data "rainfall") "mm" with
      | None => Eff.ret None
      | Some r =>
          match clean (get_field data "temperature") degree_token with
          | None => Eff.ret None
          | Some t =>
              match clean (get_field data "humidity") "%" with
              | None => Eff.ret None
              | Some h =>
                  Eff.ret (Some (mkObservation r t h))
              end
          end
      end
  end.

(** [range(n)] *)
Definition range (n : Z) : list Z := map Z.of_nat (seq 0 (Z.to_nat n)).

(** [fetch_historical_weather], for the [get_weather_data] method of
    [self].  The loop body is the assignment to [check_date] alone; the
    call to the gateway follows the loop. *)
Definition fetch_historical_weather_of
    (self_get_weather_data : string -> string -> Eff.M (option observation))
    (location base_date : string) (days_before : Z) : Eff.M (list row) :=
  match strptime base_date with
  | None => Eff.raise Eff.ValueError
  | Some base =>
      let check_date :=
        fold_left (fun _ day => Some (strftime (base - day)))
                  (range days_before) None in
      match check_date with
      | None => Eff.raise Eff.UnboundLocalError
      | Some check_date =>
          hourly_data <- self_get_weather_data location check_date ;;
          match hourly_data with
          | Some h =>
              Eff.ret [mkRow (obs_rainfall h) (obs_temperature h)
                             (obs_humidity h) check_date]
          | None => Eff.ret []
          end
      end
  end.

Definition fetch_historical_weather :=
  fetch_historical_weather_of get_weather_data.

(** The dictionaries built by [_analyze_historical_context]. *)
Record rainfall_summary : Type := mkRainfallSummary {
  rs_mean : Num.nfloat;
  rs_median : Num.nfloat;
  rs_max : Num.nfloat;
  rs_percentile_90 : Num.nfloat
}.

Record temperature_summary : Type := mkTemperatureSummary {
  ts_mean : Num.nfloat;
  ts_median : Num.nfloat;
  ts_max : Num.nfloat;
  ts_min : Num.nfloat
}.

Record humidity_summary : Type := mkHumiditySummary {
  hs_mean : Num.nfloat;
  hs_max : Num.nfloat
}.

Record rainfall_anomaly : Type := mkRainfallAnomaly {
  z_score : Num.npfloat;
  is_extreme : bool
}.

Record drought_indicators : Type := mkDroughtIndicators {
  consecutive_dry_days : option nat;
  humidity_trend : Num.nfloat
}.

Inductive analysis : Type :=
  | NoHistoricalData        (* [{'analysis': 'No historical data available'}] *)
  | Analysis (rain : rainfall_summary) (temp : temperature_summary)
             (hum : humidity_summary)
             (anomaly : option rainfall_anomaly)
             (drought : option drought_indicators).

(** [_compute_rainfall_anomaly] *)
Definition _compute_rainfall_anomaly (historical_data : list row)
    : rainfall_anomaly :=
  let rainfall_values := map rainfall historical_data in
  {| z_score :=
       Num.np_div (Num.nsub (Pandas.mean rainfall_values)
                            (Pandas.max rainfall_values))
                  (Pandas.std sqrt rainfall_values);
     is_extreme :=
       Num.ngtb (Pandas.max rainfall_values)
                (Pandas.quantile 0.95 rainfall_values) |}.

(** [_count_consecutive_low_rainfall_days], on the rainfall column of
    [historical_data]; [threshold] defaults to 0.1. *)
Definition _count_consecutive_low_rainfall_days
    (rainfall : list Q) (threshold : Q) : option nat :=
  let rainfall_series := map (fun r => Num.ltb r threshold) rainfall in
  let keys := Pandas.cumsum
                (Pandas.ne rainfall_series (Pandas.shift rainfall_series)) in
  let sums := Pandas.groupby_sum Nat.compare Nat.add keys
                (map Pandas.nat_of_bool rainfall_series) in
  Pandas.max_nat (map snd sums).

Definition default_threshold : Q := 0.1.

(** [_compute_drought_indicators] *)
Definition _compute_drought_indicators (historical_data : list row)
    : drought_indicators :=
  {| consecutive_dry_days :=
       _count_consecutive_low_rainfall_days (map rainfall historical_data)
                                            default_threshold;
     humidity_trend :=
       Pandas.nanmean (Pandas.diff (map humidity historical_data)) |}.

(** [event_type == s], where [event_type] is [None] when the claim has no
    such entry. *)
Definition is_str (v : option string) (s : string) : bool :=
  match v with Some t => PyStr.eqb t s | None => false end.

(** [_analyze_historical_context] *)
Definition _analyze_historical_context (historical_data : list row)
    (event_type severity : option string) : analysis :=
  match historical_data with
  | [] => NoHistoricalData
  | _ :: _ =>
      let rain := map rainfall historical_data in
      let temp := map temperature historical_data in
      let hum := map humidity historical_data in
      Analysis
        (mkRainfallSummary (Pandas.mean rain) (Pandas.median rain)
                           (Pandas.max rain) (Pandas.quantile 0.9 rain))
        (mkTemperatureSummary (Pandas.mean temp) (Pandas.median temp)
                              (Pandas.max temp) (Pandas.min temp))
        (mkHumiditySummary (Pandas.mean hum) (Pandas.max hum))
        (if is_str event_type "rain" || is_str event_type "flood"
         then Some (_compute_rainfall_anomaly historical_data) else None)
        (if is_str event_type "drought"
         then Some (_compute_drought_indicators historical_data) else None)
  end.

(** [_determine_claim_validity].  The analysis is a dictionary, never a
    string, so the first test of the source is false. *)
Definition _determine_claim_validity (historical_analysis : analysis)
    (event_type severity : option string) : string :=
  let anomaly :=
    match historical_analysis with
    | Analysis _ _ _ a _ => a
    | NoHistoricalData => None
    end in
  let drought :=
    match historical_analysis with
    | Analysis _ _ _ _ d => d
    | NoHistoricalData => None
    end in
  if is_str event_type "rain" || is_str event_type "flood" then
    if match anomaly with Some a => is_extreme a | None => false end then
      "Validated - Extreme Rainfall Event"
    else if is_str severity "Heavy"
            && Num.np_gtb (match anomaly with
                           | Some a => z_score a
                           | None => Num.Fin 0
                           end) 2 then
      "Partially Validated - Significant Rainfall Anomaly"
    else "Inconclusive - Need Further Investigation"
  else if is_str event_type "drought" then
    if match drought with
       | Some d => match consecutive_dry_days d with
                   | Some n => (0 <? n)%nat
                   | None => false
                   end
       | None => false
       end then
      "Validated - Drought Conditions"
    else "Inconclusive - Need Further Investigation"
  else "Inconclusive - Need Further Investigation".

End Validator.

End Earlier.

(** ** The earlier validator on binary64 readings *)

Module Earlier64.

(** One row of the [DataFrame] of daily observations. *)
Record row : Type := mkRow {
  rainfall : F64.float;
  temperature : F64.float;
  humidity : F64.float;
  date : string
}.

(** The dictionaries built by [_analyze_historical_context]. *)
Record rainfall_summary : Type := mkRainfallSummary {
  rs_mean : F64.float;
  rs_median : F64.float;
  rs_max : F64.float;
  rs_percentile_90 : F64.float
}.

Record temperature_summary : Type := mkTemperatureSummary {
  ts_mean : F64.float;
  ts_median : F64.float;
  ts_max : F64.float;
  ts_min : F64.float
}.

Record humidity_summary : Type := mkHumiditySummary {
  hs_mean : F64.float;
  hs_max : F64.float
}.

Record rainfall_anomaly : Type := mkRainfallAnomaly {
  z_score : F64.float;
  is_extreme : bool
}.

Record drought_indicators : Type := mkDroughtIndicators {
  consecutive_dry_days : option nat;
  humidity_trend : F64.float
}.

Inductive analysis : Type :=
  | NoHistoricalData        (* [{'analysis': 'No historical data available'}] *)
  | Analysis (rain : rainfall_summary) (temp : temperature_summary)
             (hum : humidity_summary)
             (anomaly : option rainfall_anomaly)
             (drought : option drought_indicators).

(** [_compute_rainfall_anomaly] *)
Definition _compute_rainfall_anomaly (historical_data : list row)
    : rainfall_anomaly :=
  let rainfall_values := map rainfall historical_data in
  {| z_score :=
       F64.div (F64.sub (Pandas64.mean rainfall_values)
                        (Pandas64.max rainfall_values))
               (Pandas64.std rainfall_values);
     is_extreme :=
       F64.gtb (Pandas64.max rainfall_values)
               (Pandas64.quantile F64.q95 rainfall_values) |}.

(** [_count_consecutive_low_rainfall_days] *)
Definition _count_consecutive_low_rainfall_days
    (historical_data : list row) (threshold : F64.float) : option nat :=
  let rainfall_series :=
    map (fun r => F64.ltb (rainfall r) threshold) historical_data in
  let keys := Pandas.cumsum
                (Pandas.ne rainfall_series (Pandas.shift rainfall_series)) in
  let sums := Pandas.groupby_sum Nat.compare Nat.add keys
                (map Pandas.nat_of_bool rainfall_series) in
  Pandas.max_nat (map snd sums).

(** [_compute_drought_indicators] *)
Definition _compute_drought_indicators (historical_data : list row)
    : drought_indicators :=
  {| consecutive_dry_days :=
       _count_consecutive_low_rainfall_days historical_data F64.tenth;
     humidity_trend :=
       Pandas64.mean (Pandas64.diff (map humidity historical_data)) |}.

(** [_analyze_historical_context] *)
Definition _analyze_historical_context (historical_data : list row)
    (event_type severity : option string) : analysis :=
  match historical_data with
  | [] => NoHistoricalData
  | _ :: _ =>
      let rain := map rainfall historical_data in
      let temp := map temperature historical_data in
      let hum := map humidity historical_data in
      Analysis
        (mkRainfallSummary (Pandas64.mean rain) (Pandas64.median rain)
                           (Pandas64.max rain)
                           (Pandas64.quantile F64.q90 rain))
        (mkTemperatureSummary (Pandas64.mean temp) (Pandas64.median temp)
                              (Pandas64.max temp) (Pandas64.min temp))
        (mkHumiditySummary (Pandas64.mean hum) (Pandas64.max hum))
        (if Earlier.is_str event_type "rain"
            || Earlier.is_str event_type "flood"
         then Some (_compute_rainfall_anomaly historical_data) else None)
        (if Earlier.is_str event_type "drought"
         then Some (_compute_drought_indicators historical_data) else None)
  end.

(** [_determine_claim_validity].  The analysis is a dictionary, never a
    string, so the first test of the source is false. *)
Definition _determine_claim_validity (historical_analysis : analysis)
    (event_type severity : option string) : string :=
  let anomaly :=
    match historical_analysis with
    | Analysis _ _ _ a _ => a
    | NoHistoricalData => None
    end in
  let drought :=
    match historical_analysis with
    | Analysis _ _ _ _ d => d
    | NoHistoricalData => None
    end in
  if Earlier.is_str event_type "rain" || Earlier.is_str event_type "flood" then
    if match anomaly with Some a => is_extreme a | None => false end then
      "Validated - Extreme Rainfall Event"
    else if Earlier.is_str severity "Heavy"
            && F64.gtb (match anomaly with
                        | Some a => z_score a
                        | None => F64.zero
                        end) (F64.of_nat 2) then
      "Partially Validated - Significant Rainfall Anomaly"
    else "Inconclusive - Need Further Investigation"
  else if Earlier.is_str event_type "drought" then
    if match drought with
       | Some d => match consecutive_dry_days d with
                   | Some n => (0 <? n)%nat
                   | None => false
                   end
       | None => false
       end then
      "Validated - Drought Conditions"
    else "Inconclusive - Need Further Investigation"
  else "Inconclusive - Need Further Investigation".

End Earlier64.

(** ** The enhanced validator: [a.py] *)

Module Enhanced.

(** [claim_details]: the string-valued entries of the dictionary and its
    integer entry ['Days'], each absent or present. *)
Record claim_details : Type := mkClaim {
  entries : gmap string string;
  Days : option Z
}.

(** [analysis['event_specific']] for a rainfall event. *)
Record rainfall_event : Type := mkRainfallEvent {
  peak_daily_rainfall : Num.nfloat;
  rainfall_intensity : Num.nfloat;
  extreme_rainfall_threshold : Num.nfloat;
  days_above_normal : nat;
  total_period_rainfall : Q
}.

(** [analysis['event_specific']] for a drought event. *)
Record drought_event : Type := mkDroughtEvent {
  dry_spell_length : option nat;
  total_rainfall : Q;
  avg_daily_rainfall : Num.nfloat;
  days_below_threshold : nat;
  humidity_trend : Num.nfloat;
  temperature_anomaly : Num.nfloat
}.

Inductive event_data : Type :=
  | RainfallEvent (e : rainfall_event)
  | DroughtEvent (d : drought_event).

Record rainfall_stats : Type := mkRainfallStats {
  rf_mean : Num.nfloat;
  rf_median : Num.nfloat;
  rf_max : Num.nfloat;
  rf_std : Num.nfloat;
  rf_consecutive_dry_days : option nat;
  rf_total_rainfall : Q
}.

Record temperature_stats : Type := mkTemperatureStats {
  tp_mean : Num.nfloat;
  tp_max : Num.nfloat;
  tp_min : Num.nfloat;
  tp_range : Num.nfloat
}.

(** The dictionary built by [_analyze_historical_context]. *)
Inductive analysis : Type :=
  | NoHistoricalData        (* [{'analysis': 'No historical data available'}] *)
  | Analysis (rain : rainfall_stats) (temp : temperature_stats)
             (event_specific : option event_data).

(** The dictionary returned by [analyze_claim]. *)
Record verdict : Type := mkVerdict {
  validation_status : string;
  error_message : option string;
  historical_analysis : option analysis;
  data_period : option string;
  location : option string
}.

Definition MIN_DROUGHT_DAYS : Z := 7.
Definition MONTHLY_DAYS : Z := 30.
Definition RAINFALL_THRESHOLD : Q := 0.1.

(** [EventType.RAIN.value] and so on. *)
Definition RAIN : string := "rain".
Definition FLOOD : string := "flood".
Definition DROUGHT : string := "drought".

(** [claim_details.get(key, '')] *)
Definition get_str (c : claim_details) (key : string) : string :=
  default "" (entries c !! key).

(** [key in claim_details] *)
Definition has_key (c : claim_details) (key : string) : bool :=
  bool_decide (is_Some (entries c !! key)).

(** [_determine_analysis_period] *)
Definition _determine_analysis_period (c : claim_details) : Z :=
  let event_type := PyStr.lower (get_str c "Event Type") in
  let date_descriptor := PyStr.lower (get_str c "Date Descriptor") in
  if PyStr.eqb event_type DROUGHT then
    if PyStr.eqb date_descriptor "this month" then MONTHLY_DAYS
    else Z.max (default MIN_DROUGHT_DAYS (Days c)) MIN_DROUGHT_DAYS
  else if PyStr.eqb date_descriptor "this month" then MONTHLY_DAYS
  else if PyStr.eqb date_descriptor "yesterday" then 2%Z
  else 1%Z.

Definition required_fields : list string :=
  ["Location"; "Date"; "Event Type"; "Severity"].

(** [_validate_claim_inputs] *)
Definition _validate_claim_inputs (c : claim_details) : bool * option string :=
  if negb (forallb (has_key c) required_fields) then
    (false, Some "Missing required claim details")
  else
    let event_type := PyStr.lower (get_str c "Event Type") in
    if PyStr.eqb event_type DROUGHT
       && (default 0 (Days c) <? MIN_DROUGHT_DAYS)%Z then
      (false, Some ("Drought claims require minimum "
                    ++ PyStr.of_int MIN_DROUGHT_DAYS ++ " days of data"))
    else (true, None).

(** [_validate_rainfall_claim] *)
Definition _validate_rainfall_claim (e : rainfall_event) (severity : string)
    : string :=
  let peak_rainfall := peak_daily_rainfall e in
  let intensity := rainfall_intensity e in
  let threshold := extreme_rainfall_threshold e in
  if Num.ngtb peak_rainfall (Num.nmul threshold 1.5) then
    "Validated - Extreme Rainfall Event"
  else if Num.ngtb peak_rainfall threshold
          && PyStr.in_list (PyStr.lower severity) ["moderate"; "severe"] then
    "Validated - Significant Rainfall"
  else if Num.ngtb intensity (Some 10)
          && PyStr.eqb (PyStr.lower severity) "severe" then
    "Validated - High Intensity Rainfall"
  else if Num.ngtb peak_rainfall (Num.nmul threshold 0.75) then
    "Partially Validated - Moderate Rainfall"
  else "Invalid - Rainfall Below Expected Threshold".

(** [_validate_drought_claim] *)
Definition _validate_drought_claim (d : drought_event) (severity : string)
    : string :=
  let dry_spell := dry_spell_length d in
  if Num.ngeb_nat dry_spell 14
     && PyStr.eqb (PyStr.lower severity) "severe" then
    "Validated - Severe Drought Conditions"
  else if Num.ngeb_nat dry_spell 7 && (5 <=? days_below_threshold d)%nat then
    "Validated - Moderate Drought Conditions"
  else if Num.ltb (total_rainfall d) 5 && Num.ngeb_nat dry_spell 5 then
    "Partially Validated - Mild Drought Conditions"
  else "Invalid - Insufficient Drought Indicators".

(** [_determine_claim_validity].  Reading a rainfall key of a drought record,
    or the converse, raises [KeyError]. *)
Definition _determine_claim_validity (a : analysis)
    (event_type severity : string) : Eff.res string :=
  match a with
  | NoHistoricalData | Analysis _ _ None =>
      Eff.Ok "Unable to Validate - Insufficient Data"
  | Analysis _ _ (Some event_data) =>
      if PyStr.in_list event_type [RAIN; FLOOD] then
        match event_data with
        | RainfallEvent e => Eff.Ok (_validate_rainfall_claim e severity)
        | DroughtEvent _ => Eff.Raise Eff.KeyError
        end
      else if PyStr.eqb event_type DROUGHT then
        match event_data with
        | DroughtEvent d => Eff.Ok (_validate_drought_claim d severity)
        | RainfallEvent _ => Eff.Raise Eff.KeyError
        end
      else Eff.Ok "Unable to Validate - Unknown Event Type"
  end.

Section Validator.
(** The provider, Python's [float()] on strings and NumPy's square root,
    as for the earlier validator. *)
Variable http_get : Eff.request -> Eff.response.
Variable py_float : string -> option Q.
Variable sqrt : Q -> Q.

(** [_parse_numeric_value]: [split] and [strip] never raise, so the only
    failure is the [ValueError] of [float], which is turned into 0.0. *)
Definition _parse_numeric_value (value_str unit : string) : Q :=
  match py_float (PyStr.strip (PyStr.split_head unit value_str)) with
  | Some x => x
  | None => 0
  end.

(** The degree sign U+00B0. *)
Definition degree_token : string := String "194" (String "176" EmptyString).

(** [data.get(key, '0')] followed by [str(...)]. *)
Definition get_field (data : gmap string string) (key : string) : string :=
  default "0" (data !! key).

(** [get_weather_data], with [hour] at its default 12. *)
Definition get_weather_data (location date : string)
    : Eff.M (option observation) :=
  resp <- Eff.get http_get (Eff.mkRequest location date 12) ;;
  match resp with
  | Eff.ConnectionFailed | Eff.BadStatus | Eff.BadBody => Eff.ret None
  | Eff.JsonOther => Eff.raise Eff.AttributeError
  | Eff.JsonObject data =>
      Eff.ret (Some
        {| obs_rainfall :=
             _parse_numeric_value (get_field data "rainfall") "mm";
           obs_temperature :=
             _parse_numeric_value (get_field data "temperature") degree_token;
           obs_humidity :=
             _parse_numeric_value (get_field data "humidity") "%" |})
  end.

(** [self.fetch_historical_weather]: the class has no base class, defines
    no method of this name and sets no such attribute in [__init__], so
    the lookup raises [AttributeError], before any argument of a call is
    evaluated. *)
Definition fetch_historical_weather
    : Eff.M (string -> string -> Z -> Eff.M (list row)) :=
  Eff.raise Eff.AttributeError.

(** [self._count_consecutive_low_rainfall_days]: likewise. *)
Definition _count_consecutive_low_rainfall_days
    : Eff.M (list row -> Eff.M (option nat)) :=
  Eff.raise Eff.AttributeError.

(** [_analyze_rainfall_event] *)
Definition _analyze_rainfall_event (data : list row) : rainfall_event :=
  let daily_totals :=
    map snd (Pandas.groupby_sum String.compare Qplus
                                (map date data) (map rainfall data)) in
  let normal := Num.nadd (Pandas.mean daily_totals)
                         (Pandas.std sqrt daily_totals) in
  {| peak_daily_rainfall := Pandas.max daily_totals;
     rainfall_intensity := Num.ndiv (Pandas.max daily_totals) 24;
     extreme_rainfall_threshold := Pandas.quantile 0.95 daily_totals;
     days_above_normal :=
       length (filter (fun t => Num.ngtb (Some t) normal) daily_totals);
     total_period_rainfall := Pandas.sum daily_totals |}.

(** [_analyze_drought_event]: the entries of the dictionary are evaluated
    in the order written, the dry spell first. *)
Definition _analyze_drought_event (data : list row) : Eff.M drought_event :=
  count_days <- _count_consecutive_low_rainfall_days ;;
  dry_spell <- count_days data ;;
  let temp := map temperature data in
  Eff.ret
    {| dry_spell_length := dry_spell;
       total_rainfall := Pandas.sum (map rainfall data);
       avg_daily_rainfall := Pandas.mean (map rainfall data);
       days_below_threshold :=
         length (filter (fun r => Num.ltb (rainfall r) RAINFALL_THRESHOLD)
                        data);
       humidity_trend := Pandas.nanmean (Pandas.diff (map humidity data));
       temperature_anomaly :=
         Pandas.nanmean (Pandas.rsub (Pandas.mean temp)
                                     (Pandas.rolling_mean 7 temp)) |}.

(** [_analyze_historical_context]: of the rainfall statistics, the mean,
    the median, the maximum and the standard deviation are evaluated
    before the consecutive dry days are asked for. *)
Definition _analyze_historical_context (historical_data : list row)
    (event_type severity : string) : Eff.M analysis :=
  match historical_data with
  | [] => Eff.ret NoHistoricalData
  | _ :: _ =>
      let rain := map rainfall historical_data in
      let temp := map temperature historical_data in
      count_days <- _count_consecutive_low_rainfall_days ;;
      consecutive_dry_days <- count_days historical_data ;;
      event_specific <-
        (if PyStr.in_list event_type [RAIN; FLOOD] then
           Eff.ret (Some (RainfallEvent
                            (_analyze_rainfall_event historical_data)))
         else if PyStr.eqb event_type DROUGHT then
           (d <- _analyze_drought_event historical_data ;;
            Eff.ret (Some (DroughtEvent d)))
         else Eff.ret None) ;;
      Eff.ret
        (Analysis
           {| rf_mean := Pandas.mean rain;
              rf_median := Pandas.median rain;
              rf_max := Pandas.max rain;
              rf_std := Pandas.std sqrt rain;
              rf_consecutive_dry_days := consecutive_dry_days;
              rf_total_rainfall := Pandas.sum rain |}
           {| tp_mean := Pandas.mean temp;
              tp_max := Pandas.max temp;
              tp_min := Pandas.min temp;
              tp_range := Num.nsub (Pandas.max temp) (Pandas.min temp) |}
           event_specific)
  end.

(** [claim_details[key]] *)
Definition getitem (c : claim_details) (key : string) : Eff.M string :=
  match entries c !! key with
  | Some v => Eff.ret v
  | None => Eff.raise Eff.KeyError
  end.

Definition lift {A} (r : Eff.res A) : Eff.M A := fun log => (r, log).

(** [analyze_claim] *)
Definition analyze_claim (c : claim_details) : Eff.M verdict :=
  let '(is_valid, error_message) := _validate_claim_inputs c in
  if negb is_valid then
    Eff.ret {| validation_status := "Invalid Claim";
               error_message := error_message;
               historical_analysis := None;
               data_period := None;
               location := None |}
  else
    let days_to_analyze := _determine_analysis_period c in
    fetch <- fetch_historical_weather ;;
    loc <- getitem c "Location" ;;
    day <- getitem c "Date" ;;
    historical_data <- fetch loc day days_to_analyze ;;
    match historical_data with
    | [] =>
        Eff.ret {| validation_status := "Unable to Validate";
                   error_message := Some "No weather data available";
                   historical_analysis := None;
                   data_period := None;
                   location := None |}
    | _ :: _ =>
        event_type <- getitem c "Event Type" ;;
        severity <- getitem c "Severity" ;;
        analysis_result <-
          _analyze_historical_context historical_data event_type severity ;;
        status <- lift (_determine_claim_validity analysis_result
                                                  event_type severity) ;;
        loc' <- getitem c "Location" ;;
        Eff.ret {| validation_status := status;
                   error_message := None;
                   historical_analysis := Some analysis_result;
                   data_period :=
                     Some (PyStr.of_int days_to_analyze ++ " days");
                   location := Some loc' |}
    end.

End Validator.

End Enhanced.

(** ** The engine as the specification words it *)

Module Spec.

(** A rule of a classifier: a condition on the event record and the
    severity, and the verdict given when it holds. *)
Definition rule (E : Type) : Type := ((E -> string -> bool) * string)%type.

(** The verdict of the first rule that matches, [otherwise] when none does. *)
Fixpoint first_match {E} (rules : list (rule E)) (otherwise : string)
    (e : E) (severity : string) : string :=
  match rules with
  | [] => otherwise
  | (cond, v) :: rules' =>
      if cond e severity then v else first_match rules' otherwise e severity
  end.

(** "severity is [name]": severities are compared without regard to case. *)
Definition severity_is (severity name : string) : bool :=
  PyStr.eqb (PyStr.lower severity) name.

(** The four rainfall rules. *)
Definition rainfall_extreme : rule Enhanced.rainfall_event :=
  (fun e _ =>
     Num.ngtb (Enhanced.peak_daily_rainfall e)
              (Num.nmul (Enhanced.extreme_rainfall_threshold e) 1.5),
   "Validated - Extreme Rainfall Event").

Definition rainfall_significant : rule Enhanced.rainfall_event :=
  (fun e s =>
     Num.ngtb (Enhanced.peak_daily_rainfall e)
              (Enhanced.extreme_rainfall_threshold e)
     && (severity_is s "moderate" || severity_is s "severe"),
   "Validated - Significant Rainfall").

Definition rainfall_high_intensity : rule Enhanced.rainfall_event :=
  (fun e s =>
     Num.ngtb (Enhanced.rainfall_intensity e) (Some 10)
     && severity_is s "severe",
   "Validated - High Intensity Rainfall").

Definition rainfall_moderate : rule Enhanced.rainfall_event :=
  (fun e _ =>
     Num.ngtb (Enhanced.peak_daily_rainfall e)
              (Num.nmul (Enhanced.extreme_rainfall_threshold e) 0.75),
   "Partially Validated - Moderate Rainfall").

(** The rainfall rule list, in order, and the verdict when no rule matches. *)
Definition rainfall_rules : list (rule Enhanced.rainfall_event) :=
  [rainfall_extreme; rainfall_significant; rainfall_high_intensity;
   rainfall_moderate].

Definition rainfall_otherwise : string :=
  "Invalid - Rainfall Below Expected Threshold".

(** The three drought rules. *)
Definition drought_severe : rule Enhanced.drought_event :=
  (fun d s =>
     Num.ngeb_nat (Enhanced.dry_spell_length d) 14 && severity_is s "severe",
   "Validated - Severe Drought Conditions").

Definition drought_moderate : rule Enhanced.drought_event :=
  (fun d _ =>
     Num.ngeb_nat (Enhanced.dry_spell_length d) 7
     && (5 <=? Enhanced.days_below_threshold d)%nat,
   "Validated - Moderate Drought Conditions").

Definition drought_mild : rule Enhanced.drought_event :=
  (fun d _ =>
     Num.ltb (Enhanced.total_rainfall d) 5
     && Num.ngeb_nat (Enhanced.dry_spell_length d) 5,
   "Partially Validated - Mild Drought Conditions").

(** The drought rule list, in order, and the verdict when no rule matches. *)
Definition drought_rules : list (rule Enhanced.drought_event) :=
  [drought_severe; drought_moderate; drought_mild].

Definition drought_otherwise : string :=
  "Invalid - Insufficient Drought Indicators".

(** The claim's event type, date descriptor and requested days, as the
    engine reads them. *)
Definition is_drought (c : Enhanced.claim_details) : bool :=
  PyStr.eqb (PyStr.lower (Enhanced.get_str c "Event Type")) "drought".

Definition date_descriptor (c : Enhanced.claim_details) : string :=
  PyStr.lower (Enhanced.get_str c "Date Descriptor").

Definition requested_days (c : Enhanced.claim_details) : Z :=
  default 0%Z (Enhanced.Days c).

(** The window-size policy. *)
Definition window_size (drought : bool) (descriptor : string)
    (requested : Z) : Z :=
  if drought then
    if PyStr.eqb descriptor "this month" then 30%Z else Z.max requested 7
  else if PyStr.eqb descriptor "this month" then 30%Z
  else if PyStr.eqb descriptor "yesterday" then 2%Z
  else 1%Z.

(** The terminal verdict of a rejected claim. *)
Definition invalid_claim (reason : string) : Enhanced.verdict :=
  {| Enhanced.validation_status := "Invalid Claim";
     Enhanced.error_message := Some reason;
     Enhanced.historical_analysis := None;
     Enhanced.data_period := None;
     Enhanced.location := None |}.

(** A claim lacks a required field. *)
Definition missing_field (c : Enhanced.claim_details) : Prop :=
  exists field, In field Enhanced.required_fields
                /\ Enhanced.entries c !! field = None.

(** The leading part of a provider value, before the unit token: up to
    the first position at which the token occurs. *)
Definition before_token (unit value : string) : string :=
  match String.index 0 unit value with
  | Some n => String.substring 0 n value
  | None => value
  end.

(** The reading of a unit-suffixed value: the number in front of the unit
    token, and 0.0 when there is no number there. *)
Definition reading (py_float : string -> option Q) (unit value : string) : Q :=
  default 0 (py_float (PyStr.strip (before_token unit value))).

(** A day is dry when its rainfall is below 0.1 mm. *)
Definition dry (rainfall_mm : Q) : bool := Num.ltb rainfall_mm 0.1.

(** The lengths of the dry runs of a rainfall series, and the longest. *)
Definition dry_run_lengths (rainfall : list Q) : list nat :=
  Runs.true_run_lengths (map dry rainfall).

Definition longest_dry_run (rainfall : list Q) : nat :=
  Runs.longest_true_run (map dry rainfall).

End Spec.

(** ** Concrete collaborators for the examples *)

Module Sample.

(** Decimal numerals such as [12.3], standing for Python's [float]. *)
Definition digit (c : ascii) : option Z :=
  let n := nat_of_ascii c in
  if ((48 <=? n) && (n <=? 57))%nat then Some (Z.of_nat (n - 48)) else None.

Fixpoint decimal (s : string) (num : Z) (scale : positive)
    (point any : bool) : option Q :=
  match s with
  | EmptyString => if any then Some (num # scale) else None
  | String c s' =>
      if Ascii.eqb c "." then
        if point then None else decimal s' num scale true any
      else
        match digit c with
        | Some d =>
            decimal s' (10 * num + d)%Z
                    (if point then (10 * scale)%positive else scale) point true
        | None => None
        end
  end.

Definition py_float (s : string) : option Q := decimal s 0 1 false false.

(** Days of the proleptic Gregorian calendar, counted from 1970-01-01. *)
Definition days_from_civil (y m d : Z) : Z :=
  let y' := if (m <=? 2)%Z then (y - 1)%Z else y in
  let era := (y' / 400)%Z in
  let yoe := (y' - era * 400)%Z in
  let mp := ((m + 9) mod 12)%Z in
  let doy := ((153 * mp + 2) / 5 + d - 1)%Z in
  let doe := (yoe * 365 + yoe / 4 - yoe / 100 + doy)%Z in
  (era * 146097 + doe - 719468)%Z.

Definition civil_from_days (z : Z) : Z * Z * Z :=
  let z := (z + 719468)%Z in
  let era := (z / 146097)%Z in
  let doe := (z - era * 146097)%Z in
  let yoe := ((doe - doe / 1460 + doe / 36524 - doe / 146096) / 365)%Z in
  let doy := (doe - (365 * yoe + yoe / 4 - yoe / 100))%Z in
  let mp := ((5 * doy + 2) / 153)%Z in
  let d := (doy - (153 * mp + 2) / 5 + 1)%Z in
  let m := if (mp <? 10)%Z then (mp + 3)%Z else (mp - 9)%Z in
  let y := (yoe + era * 400)%Z in
  (if (m <=? 2)%Z then (y + 1)%Z else y, m, d).

Fixpoint number (s : string) (acc : Z) : option Z :=
  match s with
  | EmptyString => Some acc
  | String c s' =>
      match digit c with
      | Some d => number s' (10 * acc + d)%Z
      | None => None
      end
  end.

(** Dates written [YYYY-MM-DD]. *)
Definition strptime (s : string) : option Z :=
  if ((String.length s =? 10)%nat
      && PyStr.eqb (substring 4 1 s) "-" && PyStr.eqb (substring 7 1 s) "-")
  then
    match number (substring 0 4 s) 0, number (substring 5 2 s) 0,
          number (substring 8 2 s) 0 with
    | Some y, Some m, Some d => Some (days_from_civil y m d)
    | _, _, _ => None
    end
  else None.

Definition pad2 (n : Z) : string :=
  if (n <? 10)%Z then "0" ++ PyStr.of_int n else PyStr.of_int n.

Definition strftime (z : Z) : string :=
  let '(y, m, d) := civil_from_days z in
  PyStr.of_int y ++ "-" ++ pad2 m ++ "-" ++ pad2 d.

(** The integer part of the square root. *)
Definition sqrt (x : Q) : Q := inject_Z (Z.sqrt (Qfloor x)).

(** Readings whose temperature is corrupt. *)
Definition corrupt_readings : gmap string string :=
  list_to_map [("rainfall", "12.3 mm"); ("temperature", "n/a");
               ("humidity", "55%")].

(** Readings with the degree token as the earlier validator spells it. *)
Definition legacy_readings : gmap string string :=
  list_to_map [("rainfall", "12.3 mm");
               ("temperature", "18.0" ++ Earlier.degree_token ++ "C");
               ("humidity", "55%")].

Definition legacy_provider (r : Eff.request) : Eff.response :=
  Eff.JsonObject legacy_readings.

Definition corrupt_provider (r : Eff.request) : Eff.response :=
  Eff.JsonObject corrupt_readings.

(** A rainfall series with a wet day between two dry spells. *)
Definition rainfall_series : list Q := [0; 0.05; 5; 0.02; 0; 0].

(** A week of observations, given its temperatures. *)
Definition week (temps : list Q) : list row :=
  map (fun t => mkRow 0 t 50 "2024-01-15") temps.

(** A claim about a storm, an event type the engine has no rules for. *)
Definition storm_claim : Enhanced.claim_details :=
  Enhanced.mkClaim
    (list_to_map [("Location", "Abuja"); ("Date", "2024-01-15");
                  ("Event Type", "storm"); ("Severity", "Severe")])
    (Some 7%Z).

(** A drought claim over 30 days, and a flood claim described as of
    yesterday. *)
Definition drought_claim : Enhanced.claim_details :=
  Enhanced.mkClaim
    (list_to_map [("Location", "Kano"); ("Date", "2024-04-15");
                  ("Event Type", "drought"); ("Severity", "Severe")])
    (Some 30%Z).

Definition flood_claim : Enhanced.claim_details :=
  Enhanced.mkClaim
    (list_to_map [("Location", "Lagos"); ("Date", "2024-01-15");
                  ("Event Type", "flood"); ("Severity", "Severe");
                  ("Date Descriptor", "Yesterday")])
    None.

(** The first day of the month of a day. *)
Definition month_start (z : Z) : Z :=
  let '(y, m, _) := civil_from_days z in days_from_civil y m 1.

(** A date parser that finds no date. *)
Definition dateparser (text : string) (base : Z) : option Z := None.

(** Two texts, and what spaCy is taken to find in them. *)
Definition drought_text : string := "Severe drought in Kano this March".
Definition flood_text : string := "Severe flood in Lagos yesterday".

Definition ents (text : string) : list (string * string) :=
  if PyStr.eqb text drought_text then [("GPE", "Kano"); ("DATE", "this March")]
  else if PyStr.eqb text flood_text then
    [("GPE", "Lagos"); ("DATE", "yesterday")]
  else [].

Definition matcher (text : string) : list (string * string) :=
  if PyStr.eqb text drought_text then
    [("SEVERITY", "Severe"); ("EVENT_TYPE", "drought")]
  else if PyStr.eqb text flood_text then
    [("SEVERITY", "Severe"); ("EVENT_TYPE", "flood")]
  else [].

End Sample.

(** ** Windows of binary64 readings for the examples *)

Module Sample64.

(** A window of [n] days with the same rainfall [r] every day, at 20
    degrees and 50 per cent of humidity. *)
Definition window (r : F64.float) (n : nat) : list Earlier64.row :=
  repeat (Earlier64.mkRow r (F64.of_nat 20) (F64.of_nat 50) "2024-01-15") n.

(** Three days with 0.1 mm of rain each, and three days with 1e-147 mm. *)
Definition light_rain : list Earlier64.row := window F64.tenth 3.
Definition trace_rain : list Earlier64.row := window F64.tiny 3.

End Sample64.

(** ** Claim extraction: [claim_processing.py] *)

Module ClaimProcessing.

(** [sub in s] on strings. *)
Definition contains (sub s : string) : bool :=
  match String.index 0 sub s with
  | Some _ => true
  | None => false
  end.

(** [TIME_PHRASES_TO_DAYS], in the order of the dictionary. *)
Definition TIME_PHRASES_TO_DAYS : list (string * Z) :=
  [("today", 1%Z); ("yesterday", 1%Z); ("tomorrow", 1%Z);
   ("this week", 7%Z); ("last week", 7%Z); ("next week", 7%Z);
   ("this month", 30%Z); ("last month", 30%Z); ("next month", 30%Z);
   ("recently", 3%Z); ("past few days", 3%Z); ("past week", 7%Z);
   ("last few days", 3%Z)].

(** The loop over the phrases: the days of the first phrase found in the
    text, [days] when none is found. *)
Fixpoint phrase_days (table : list (string * Z)) (text : string) (days : Z)
    : Z :=
  match table with
  | [] => days
  | (phrase, num_days) :: table' =>
      if contains phrase text then num_days
      else phrase_days table' text days
  end.

(** The dictionary returned by [extract_claim_details]. *)
Record claim : Type := mkClaim {
  Claim : string;
  Event_Type : string;
  Severity : string;
  Date : string;
  Location : option string;
  Days : Z
}.

Section Extraction.
(** The calendar ([strftime('%Y-%m-%d')] on day numbers, and
    [d.replace(day=1)] as [month_start]), [dateparser.parse] relative to a
    base day ([None] when it finds no date or raises), the day of
    [datetime.now()], and what spaCy finds in a text: the named entities
    with their labels and the matches with the names of their rules. *)
Variable strftime : Z -> string.
Variable month_start : Z -> Z.
Variable dateparser : string -> Z -> option Z.
Variable now : Z.
Variable ents : string -> list (string * string).
Variable matcher : string -> list (string * string).

(** [normalize_date] *)
Definition normalize_date (date_text : option string) (base_date : Z)
    : string :=
  match date_text with
  | None | Some EmptyString => strftime base_date
  | Some date_text =>
      let date_text := PyStr.strip (PyStr.lower date_text) in
      if PyStr.eqb date_text "today" then strftime base_date
      else if PyStr.eqb date_text "yesterday" then strftime (base_date - 1)
      else if PyStr.eqb date_text "tomorrow" then strftime (base_date + 1)
      else if PyStr.eqb date_text "this month" then
        strftime (month_start base_date)
      else if PyStr.eqb date_text "last month" then
        let first_day_of_current_month := month_start base_date in
        let last_day_of_previous_month :=
          (first_day_of_current_month - 1)%Z in
        strftime (month_start last_day_of_previous_month)
      else if PyStr.eqb date_text "next month" then
        strftime (month_start (month_start base_date + 32))
      else
        match dateparser date_text base_date with
        | Some parsed_date => strftime parsed_date
        | None => strftime base_date
        end
  end.

(** The text of the last entity carrying [label], if any. *)
Definition last_entity (label : string) (doc_ents : list (string * string))
    : option string :=
  fold_left (fun found ent => if PyStr.eqb (fst ent) label then Some (snd ent)
                              else found)
            doc_ents None.

(** The text of the last match of the rule [name], [otherwise] when there
    is none. *)
Definition last_match (name otherwise : string)
    (matches : list (string * string)) : string :=
  fold_left (fun found m => if PyStr.eqb (fst m) name then snd m else found)
            matches otherwise.

(** [extract_claim_details] *)
Definition extract_claim_details (text : string) : claim :=
  let date := last_entity "DATE" (ents text) in
  let location := last_entity "GPE" (ents text) in
  let days := phrase_days TIME_PHRASES_TO_DAYS (PyStr.lower text) 7 in
  let event_type := last_match "EVENT_TYPE" "Other" (matcher text) in
  let severity := last_match "SEVERITY" "Unknown" (matcher text) in
  let normalized_date := normalize_date date now in
  let days :=
    if PyStr.eqb event_type "drought" then
      let days := Z.max days 7 in
      if contains "this month" (PyStr.lower text)
         || contains "month" (PyStr.lower text)
      then 30%Z else days
    else days in
  let rejected :=
    (days <=? 1)%Z && PyStr.in_list event_type ["drought"; "flood"] in
  {| Claim := text;
     Event_Type := if rejected then "Insufficient Data" else event_type;
     Severity := if rejected then "Unassessable" else severity;
     Date := normalized_date;
     Location := location;
     Days := days |}.

(** [process_claims_from_text], on a string or a list of strings. *)
Definition process_claims_from_text (input_text : string + list string)
    : list claim :=
  match input_text with
  | inl text => [extract_claim_details text]
  | inr texts => map extract_claim_details texts
  end.

End Extraction.

(** The dictionary of an extracted claim as the validator reads it, when a
    location was found: the string entries and the integer entry. *)
Definition to_claim_details (e : claim) (location : string)
    : Enhanced.claim_details :=
  Enhanced.mkClaim
    (list_to_map [("Claim", Claim e); ("Event Type", Event_Type e);
                  ("Severity", Severity e); ("Date", Date e);
                  ("Location", location)])
    (Some (Days e)).

End ClaimProcessing.

(** ** The weather API: [scripts/api] *)

Module Api.

(** JSON values as Python holds them.  A number is given by its [str()]
    rendering; a dictionary is a finite map. *)
#[warnings="-register-all"]
Inductive json : Type :=
  | JNull
  | JBool (b : bool)
  | JNum (text : string)
  | JStr (s : string)
  | JList (items : list json)
  | JObj (entries : gmap string json).

(** What can go wrong inside the [try] block of the view. *)
Inductive failure : Type :=
  | NoGet (v : json)             (* [AttributeError]: [v] has no [get] *)
  | NotSubscriptable (v : json)  (* [TypeError]: [v[0]] on a scalar *)
  | IndexOutOfRange (v : json)   (* [IndexError]: [v[0]] on an empty [v] *)
  | NoKeyZero (v : json).        (* [KeyError]: [v[0]] on a dictionary *)

Inductive result (A : Type) : Type :=
  | Done (a : A)
  | Failed (f : failure).
Arguments Done {A} a.
Arguments Failed {A} f.

Definition and_then {A B} (r : result A) (k : A -> result B) : result B :=
  match r with
  | Done a => k a
  | Failed f => Failed f
  end.

(** [d.get(key, default)] *)
Definition get (d : json) (key : string) (otherwise : json) : result json :=
  match d with
  | JObj entries => Done (default otherwise (entries !! key))
  | v => Failed (NoGet v)
  end.

(** [v[0]]; on a string it is its first character. *)
Definition first (v : json) : result json :=
  match v with
  | JList (x :: _) => Done x
  | JList [] => Failed (IndexOutOfRange v)
  | JStr (String c _) => Done (JStr (String c EmptyString))
  | JStr EmptyString => Failed (IndexOutOfRange v)
  | JObj _ => Failed (NoKeyZero v)
  | JNull | JBool _ | JNum _ => Failed (NotSubscriptable v)
  end.

(** The dictionary returned by [display_weather] when it finds no error. *)
Record weather : Type := mkWeather {
  time : json;
  temperature : string;
  feels_like : string;
  rainfall : string;
  chance_of_rain : string;
  wind_speed : string;
  humidity : string;
  uv_index : json;
  cloud_cover : string;
  condition : json;
  condition_icon_url : json
}.

(** What [display_weather] returns: the dictionary with the single key
    ['error'], or the formatted weather. *)
Inductive view : Type :=
  | ViewError (error : json)
  | ViewWeather (w : weather).

(** What the request to WeatherAPI comes to: a [RequestException] with its
    text, or the dictionary of the body. *)
Inductive upstream : Type :=
  | UpFailed (text : string)
  | UpBody (body : gmap string json).

Section Api.
(** [str()] of lists and dictionaries, [str(e)] of the exceptions, and the
    upstream service. *)
Variable py_repr : json -> string.
Variable describe : failure -> string.
Variable weatherapi : string -> string -> string -> upstream.

(** [str(v)], as used by the f-strings. *)
Definition py_str (v : json) : string :=
  match v with
  | JStr s => s
  | JNum text => text
  | JNull => "None"
  | JBool true => "True"
  | JBool false => "False"
  | JList _ | JObj _ => py_repr v
  end.

(** The degree sign, in the two bytes of its UTF-8 encoding. *)
Definition degree : string := String "194" (String "176" EmptyString).

(** The body of the [try] block of [display_weather]. *)
Definition format_weather (weather_data : gmap string json) : result weather :=
  let forecast_entry := default (JObj ∅) (weather_data !! "forecast") in
  and_then (get forecast_entry "forecastday" (JList [JObj ∅])) (fun days =>
  and_then (first days) (fun forecast =>
  and_then (get forecast "hour" (JList [JObj ∅])) (fun hours =>
  and_then (first hours) (fun hour_data =>
  and_then (get forecast "day" (JObj ∅)) (fun day_data =>
  and_then (get hour_data "time" (JStr "")) (fun v_time =>
  and_then (get hour_data "temp_c" (JStr "")) (fun temp_c =>
  and_then (get hour_data "feelslike_c" (JStr "")) (fun feelslike_c =>
  and_then (get hour_data "precip_mm" (JNum "0.0")) (fun precip_mm =>
  and_then (get hour_data "chance_of_rain" (JNum "0")) (fun chance =>
  and_then (get hour_data "wind_kph" (JNum "0.0")) (fun wind_kph =>
  and_then (get hour_data "humidity" (JNum "0")) (fun v_humidity =>
  and_then (get hour_data "uv" (JNum "0.0")) (fun uv =>
  and_then (get hour_data "cloud" (JNum "0")) (fun cloud =>
  and_then (get hour_data "condition" (JObj ∅)) (fun condition1 =>
  and_then (get condition1 "text" (JStr "")) (fun text =>
  and_then (get hour_data "condition" (JObj ∅)) (fun condition2 =>
  and_then (get condition2 "icon" (JStr "")) (fun icon =>
  Done {| time := v_time;
          temperature := py_str temp_c ++ degree ++ "C";
          feels_like := py_str feelslike_c ++ degree ++ "C";
          rainfall := py_str precip_mm ++ " mm";
          chance_of_rain := py_str chance ++ "%";
          wind_speed := py_str wind_kph ++ " kph";
          humidity := py_str v_humidity ++ "%";
          uv_index := uv;
          cloud_cover := py_str cloud ++ "%";
          condition := text;
          condition_icon_url := icon |})))))))))))))))))).

(** [WeatherView.display_weather] *)
Definition display_weather (weather_data : gmap string json) : view :=
  match weather_data !! "error" with
  | Some error => ViewError error
  | None =>
      match format_weather weather_data with
      | Done w => ViewWeather w
      | Failed f =>
          ViewError (JStr ("Error formatting weather data: " ++ describe f))
      end
  end.

(** [WeatherModel.fetch_weather_data] *)
Definition fetch_weather_data (location date hour : string)
    : gmap string json :=
  match weatherapi location date hour with
  | UpBody body => body
  | UpFailed text =>
      {["error" := JStr ("Failed to fetch data: " ++ text)]}
  end.

(** [WeatherController.get_weather] *)
Definition controller_get_weather (location date hour : string) : view :=
  let raw_data := fetch_weather_data location date hour in
  display_weather raw_data.

(** The route [/weather] of [app.py]: the status and the body of the
    answer, for the arguments of the query.  The controller raises nothing
    here, so the handler of the status 500 has no case. *)
Definition get_weather (args : gmap string string) : Z * view :=
  let location := default "Kano" (args !! "location") in
  let date := default "2024-01-01" (args !! "date") in
  let hour := default "14" (args !! "hour") in
  let result := controller_get_weather location date hour in
  match result with
  | ViewError _ => (400%Z, result)
  | ViewWeather _ => (200%Z, result)
  end.

End Api.

(** A text that spells a number: no white space in it, and none of the
    characters that start a unit token. *)
Definition numeral (text : string) : Prop :=
  forall c, In c (list_ascii_of_string text) ->
    PyStr.is_space c = false
    /\ c <> "m"%char /\ c <> "%"%char /\ c <> "194"%char.

End Api.

(** Concrete collaborators for the examples of the API. *)
Module ApiSample.

Definition py_repr (v : Api.json) : string := "[...]".

Definition describe (f : Api.failure) : string :=
  match f with
  | Api.NoGet _ => "object has no attribute 'get'"
  | Api.NotSubscriptable _ => "object is not subscriptable"
  | Api.IndexOutOfRange _ => "list index out of range"
  | Api.NoKeyZero _ => "0"
  end.

(** An upstream body with one hour of readings. *)
Definition hour_data : gmap string Api.json :=
  list_to_map [("temp_c", Api.JNum "18.0"); ("precip_mm", Api.JNum "12.3");
               ("humidity", Api.JNum "55")].

Definition body : gmap string Api.json :=
  {["forecast" :=
      Api.JObj {["forecastday" :=
                   Api.JList [Api.JObj {["hour" :=
                                           Api.JList [Api.JObj hour_data]]}]]}]}.

(** The weather that the view makes of this body. *)
Definition formatted : Api.weather :=
  {| Api.time := Api.JStr "";
     Api.temperature := "18.0" ++ Api.degree ++ "C";
     Api.feels_like := Api.degree ++ "C";
     Api.rainfall := "12.3 mm";
     Api.chance_of_rain := "0%";
     Api.wind_speed := "0.0 kph";
     Api.humidity := "55%";
     Api.uv_index := Api.JNum "0.0";
     Api.cloud_cover := "0%";
     Api.condition := Api.JStr "";
     Api.condition_icon_url := Api.JStr "" |}.

(** An upstream service that knows Kano only. *)
Definition weatherapi (location date hour : string) : Api.upstream :=
  if PyStr.eqb location "Kano" then Api.UpBody body
  else Api.UpFailed "400 Client Error".

End ApiSample.

(** * Properties *)

(** ** Comparisons *)

Lemma ltb_lt x y : Num.ltb x y = true <-> x < y.
Proof.
  unfold Num.ltb. rewrite negb_true_iff, <- not_true_iff_false, Qle_bool_iff.
  split; [apply Qnot_le_lt | apply Qlt_not_le].
Qed.


Lemma in_list_two s a b :
  PyStr.in_list s [a; b] = PyStr.eqb s a || PyStr.eqb s b.
Proof. unfold PyStr.in_list. simpl. now rewrite orb_false_r. Qed.

(** ** The classifiers *)

Lemma validate_rainfall_first_match e severity :
  Enhanced._validate_rainfall_claim e severity
  = Spec.first_match Spec.rainfall_rules Spec.rainfall_otherwise e severity.
Proof.
  unfold Enhanced._validate_rainfall_claim, Spec.rainfall_rules,
    Spec.rainfall_otherwise, Spec.first_match, Spec.rainfall_extreme,
    Spec.rainfall_significant, Spec.rainfall_high_intensity,
    Spec.rainfall_moderate, Spec.severity_is.
  rewrite in_list_two. reflexivity.
Qed.

Lemma validate_drought_first_match d severity :
  Enhanced._validate_drought_claim d severity
  = Spec.first_match Spec.drought_rules Spec.drought_otherwise d severity.
Proof. reflexivity. Qed.

(** C1.  For a rain or flood claim whose analysis holds a rainfall
    [event_specific] record, the classifier returns the verdict of the first
    of the four rainfall rules that matches, in the order extreme,
    significant, high intensity, moderate, and the invalid verdict when none
    does; with a peak of 50 over a threshold of 30 and severity Severe the
    first rule matches and the verdict is the extreme rainfall one. *)
Theorem rainfall_claim_first_matching_rule :
  (forall e severity,
      Enhanced._validate_rainfall_claim e severity
      = Spec.first_match Spec.rainfall_rules Spec.rainfall_otherwise
                         e severity)
  /\ (forall rain temp e event_type severity,
        PyStr.in_list event_type ["rain"; "flood"] = true ->
        Enhanced._determine_claim_validity
          (Enhanced.Analysis rain temp (Some (Enhanced.RainfallEvent e)))
          event_type severity
        = Eff.Ok (Spec.first_match Spec.rainfall_rules Spec.rainfall_otherwise
                                   e severity))
  /\ (forall sqrt data rain temp event_type severity,
        PyStr.in_list event_type ["rain"; "flood"] = true ->
        Enhanced._determine_claim_validity
          (Enhanced.Analysis rain temp
             (Some (Enhanced.RainfallEvent
                      (Enhanced._analyze_rainfall_event sqrt data))))
          event_type severity
        = Eff.Ok (Spec.first_match Spec.rainfall_rules Spec.rainfall_otherwise
                                   (Enhanced._analyze_rainfall_event sqrt data)
                                   severity))
  /\ (forall e,
        Enhanced.peak_daily_rainfall e = Some 50 ->
        Enhanced.extreme_rainfall_threshold e = Some 30 ->
        fst Spec.rainfall_extreme e "Severe" = true
        /\ Enhanced._validate_rainfall_claim e "Severe"
           = "Validated - Extreme Rainfall Event").
Proof.
  split; [exact validate_rainfall_first_match | split; [|split]].
  - intros rain temp e event_type severity Hev.
    unfold Enhanced._determine_claim_validity, Enhanced.RAIN, Enhanced.FLOOD.
    rewrite Hev. now rewrite validate_rainfall_first_match.
  - intros sqrt data rain temp event_type severity Hev.
    unfold Enhanced._determine_claim_validity, Enhanced.RAIN, Enhanced.FLOOD.
    rewrite Hev. now rewrite validate_rainfall_first_match.
  - intros e Hpeak Hthr.
    unfold Enhanced._validate_rainfall_claim, Spec.rainfall_extreme. simpl.
    now rewrite Hpeak, Hthr.
Qed.

Lemma rainfall_claim_first_matching_rule_witness :
  Enhanced._determine_claim_validity
    (Enhanced.Analysis
       (Enhanced.mkRainfallStats None None None None None 0)
       (Enhanced.mkTemperatureStats None None None None)
       (Some (Enhanced.RainfallEvent
                (Enhanced.mkRainfallEvent (Some 40) (Some (40 / 24)) (Some 30)
                                          0 40))))
    "flood" "Moderate"
  = Eff.Ok "Validated - Significant Rainfall"
  /\ Enhanced._validate_rainfall_claim
       (Enhanced.mkRainfallEvent (Some 50) (Some (50 / 24)) (Some 30) 1 50)
       "Severe"
     = "Validated - Extreme Rainfall Event".
Proof.
  split.
  - exact (proj1 (proj2 rainfall_claim_first_matching_rule)
             _ _ _ "flood" "Moderate" eq_refl).
  - exact (proj2 (proj2 (proj2 (proj2 rainfall_claim_first_matching_rule))
                    (Enhanced.mkRainfallEvent (Some 50) (Some (50 / 24))
                                              (Some 30) 1 50)
                    eq_refl eq_refl)).
Defined.

(** C2.  For a drought claim whose analysis holds a drought
    [event_specific] record, the classifier returns the verdict of the first
    of the three drought rules that matches, in the order severe, moderate,
    mild, and the invalid verdict when none does; with a dry spell of 10
    days, 6 days below the threshold and severity Mild the first rule fails,
    the second matches and the verdict is the moderate drought one. *)
Theorem drought_claim_first_matching_rule :
  (forall d severity,
      Enhanced._validate_drought_claim d severity
      = Spec.first_match Spec.drought_rules Spec.drought_otherwise d severity)
  /\ (forall rain temp d severity,
        Enhanced._determine_claim_validity
          (Enhanced.Analysis rain temp (Some (Enhanced.DroughtEvent d)))
          "drought" severity
        = Eff.Ok (Spec.first_match Spec.drought_rules Spec.drought_otherwise
                                   d severity))
  /\ (forall d,
        Enhanced.dry_spell_length d = Some 10%nat ->
        Enhanced.days_below_threshold d = 6%nat ->
        fst Spec.drought_severe d "Mild" = false
        /\ fst Spec.drought_moderate d "Mild" = true
        /\ Enhanced._validate_drought_claim d "Mild"
           = "Validated - Moderate Drought Conditions").
Proof.
  split; [exact validate_drought_first_match | split].
  - intros rain temp d severity. reflexivity.
  - intros d Hdry Hdays.
    unfold Enhanced._validate_drought_claim. simpl. now rewrite Hdry, Hdays.
Qed.

Lemma drought_claim_first_matching_rule_witness :
  Enhanced._validate_drought_claim
    (Enhanced.mkDroughtEvent (Some 10%nat) 12 (Some (12 / 10)) 6 None None)
    "Mild"
  = "Validated - Moderate Drought Conditions".
Proof.
  exact (proj2 (proj2 (proj2 (proj2 drought_claim_first_matching_rule)
                  (Enhanced.mkDroughtEvent (Some 10%nat) 12 (Some (12 / 10)) 6
                                           None None)
                  eq_refl eq_refl))).
Defined.

(** ** Input validation and the window-size policy *)

Lemma has_key_false c field :
  Enhanced.has_key c field = false <-> Enhanced.entries c !! field = None.
Proof.
  unfold Enhanced.has_key. rewrite bool_decide_eq_false.
  destruct (Enhanced.entries c !! field) as [v|]; split; intro H.
  - exfalso. apply H. now exists v.
  - discriminate.
  - reflexivity.
  - intros [v Hv]. discriminate.
Qed.

Lemma missing_field_iff c :
  forallb (Enhanced.has_key c) Enhanced.required_fields = false
  <-> Spec.missing_field c.
Proof.
  unfold Spec.missing_field, Enhanced.required_fields. split.
  - intro H. simpl in H.
    destruct (Enhanced.has_key c "Location") eqn:H1;
      [|exists "Location"; split; [simpl; tauto | now apply has_key_false]].
    destruct (Enhanced.has_key c "Date") eqn:H2;
      [|exists "Date"; split; [simpl; tauto | now apply has_key_false]].
    destruct (Enhanced.has_key c "Event Type") eqn:H3;
      [|exists "Event Type"; split; [simpl; tauto | now apply has_key_false]].
    destruct (Enhanced.has_key c "Severity") eqn:H4;
      [|exists "Severity"; split; [simpl; tauto | now apply has_key_false]].
    discriminate.
  - intros [field [Hin Hnone]]. apply has_key_false in Hnone.
    apply not_true_iff_false. intro Hall.
    rewrite forallb_forall in Hall. specialize (Hall field Hin). congruence.
Qed.

Lemma validated_drought_days c :
  fst (Enhanced._validate_claim_inputs c) = true ->
  Spec.is_drought c = true ->
  exists d, Enhanced.Days c = Some d /\ (7 <= d)%Z.
Proof.
  unfold Enhanced._validate_claim_inputs, Spec.is_drought, Enhanced.DROUGHT.
  intros Hvalid Hdrought. rewrite Hdrought in Hvalid.
  destruct (negb (forallb (Enhanced.has_key c) Enhanced.required_fields));
    [discriminate|].
  simpl in Hvalid.
  destruct (default 0%Z (Enhanced.Days c) <? Enhanced.MIN_DROUGHT_DAYS)%Z eqn:Hlt;
    [discriminate|].
  apply Z.ltb_ge in Hlt. unfold Enhanced.MIN_DROUGHT_DAYS in Hlt.
  destruct (Enhanced.Days c) as [d|]; simpl in Hlt; [now exists d | lia].
Qed.

(** C6.  For a claim that passes input validation the number of days to
    analyse is: 30 for a drought claim described as 'this month', the larger
    of the requested days and 7 for any other drought claim, 30 for another
    claim described as 'this month', 2 for another claim described as
    'yesterday', and 1 otherwise. *)
Theorem analysis_period_follows_policy c :
  fst (Enhanced._validate_claim_inputs c) = true ->
  Enhanced._determine_analysis_period c
  = Spec.window_size (Spec.is_drought c) (Spec.date_descriptor c)
                     (Spec.requested_days c).
Proof.
  intro Hvalid.
  unfold Enhanced._determine_analysis_period, Spec.window_size,
    Spec.date_descriptor, Spec.requested_days, Enhanced.DROUGHT.
  destruct (Spec.is_drought c) eqn:Hdrought;
    unfold Spec.is_drought in Hdrought; rewrite Hdrought; [|reflexivity].
  destruct (validated_drought_days c Hvalid Hdrought) as [d [Hd _]].
  now rewrite Hd.
Qed.

Lemma analysis_period_follows_policy_witness :
  Enhanced._determine_analysis_period
    (Enhanced.mkClaim
       (list_to_map [("Location", "Kano"); ("Date", "2024-04-15");
                     ("Event Type", "Drought"); ("Severity", "Severe")])
       (Some 12%Z))
  = 12%Z.
Proof.
  exact (analysis_period_follows_policy
           (Enhanced.mkClaim
              (list_to_map [("Location", "Kano"); ("Date", "2024-04-15");
                            ("Event Type", "Drought"); ("Severity", "Severe")])
              (Some 12%Z))
           eq_refl).
Defined.

Section EngineProperties.
Variable http_get : Eff.request -> Eff.response.
Variable py_float : string -> option Q.
Variable sqrt : Q -> Q.

Local Abbreviation analyze_claim := (Enhanced.analyze_claim sqrt).
Local Abbreviation get_weather_data :=
  (Enhanced.get_weather_data http_get py_float).

Lemma analyze_claim_missing_field c log :
  Spec.missing_field c ->
  analyze_claim c log
  = (Eff.Ok (Spec.invalid_claim "Missing required claim details"), log).
Proof.
  intro Hmissing. apply missing_field_iff in Hmissing.
  unfold Enhanced.analyze_claim, Enhanced._validate_claim_inputs.
  now rewrite Hmissing.
Qed.

Lemma analyze_claim_short_drought c log :
  ~ Spec.missing_field c ->
  Spec.is_drought c = true ->
  (Spec.requested_days c < 7)%Z ->
  analyze_claim c log
  = (Eff.Ok (Spec.invalid_claim
               "Drought claims require minimum 7 days of data"), log).
Proof.
  intros Hpresent Hdrought Hdays.
  rewrite <- missing_field_iff in Hpresent.
  apply not_false_iff_true in Hpresent.
  unfold Spec.is_drought in Hdrought.
  unfold Spec.requested_days in Hdays. apply Z.ltb_lt in Hdays.
  unfold Enhanced.analyze_claim, Enhanced._validate_claim_inputs,
    Enhanced.DROUGHT, Enhanced.MIN_DROUGHT_DAYS.
  now rewrite Hpresent, Hdrought, Hdays.
Qed.

(** C5.  A claim that lacks one of the fields Location, Date, Event Type,
    Severity, and a drought claim that asks for fewer than 7 days, is
    answered by the terminal verdict 'Invalid Claim' with a reason that says
    which of the two it is, and the request log is left as it was: no
    request reaches the provider. *)
Theorem invalid_claim_rejected_without_fetch c :
  Spec.missing_field c
  \/ (Spec.is_drought c = true /\ (Spec.requested_days c < 7)%Z) ->
  exists reason,
    (Spec.missing_field c -> reason = "Missing required claim details")
    /\ (~ Spec.missing_field c ->
        reason = "Drought claims require minimum 7 days of data")
    /\ (forall log,
          analyze_claim c log = (Eff.Ok (Spec.invalid_claim reason), log))
    /\ Eff.calls (analyze_claim c) = [].
Proof.
  intro Hbad.
  destruct (forallb (Enhanced.has_key c) Enhanced.required_fields) eqn:Hall.
  - assert (Hpresent : ~ Spec.missing_field c)
      by (rewrite <- missing_field_iff; congruence).
    destruct Hbad as [Hmissing | [Hdrought Hdays]]; [contradiction|].
    exists "Drought claims require minimum 7 days of data".
    split; [contradiction|]. split; [reflexivity|]. split.
    + intro log. now apply analyze_claim_short_drought.
    + unfold Eff.calls. now rewrite analyze_claim_short_drought.
  - apply missing_field_iff in Hall.
    exists "Missing required claim details".
    split; [reflexivity|]. split; [contradiction|]. split.
    + intro log. now apply analyze_claim_missing_field.
    + unfold Eff.calls. now rewrite analyze_claim_missing_field.
Qed.

(** The part of a value before the unit token is what [split] returns
    first. *)
Lemma split_head_before_token unit value :
  PyStr.split_head unit value = Spec.before_token unit value.
Proof.
  unfold Spec.before_token. induction value as [|c value IH].
  - simpl. now destruct unit.
  - change (PyStr.split_head unit (String c value))
      with (if String.prefix unit (String c value) then EmptyString
            else String c (PyStr.split_head unit value)).
    change (String.index 0 unit (String c value))
      with (if String.prefix unit (String c value) then Some 0%nat
            else match String.index 0 unit value with
                 | Some n => Some (S n)
                 | None => None
                 end).
    destruct (String.prefix unit (String c value)); [reflexivity|].
    rewrite IH. now destruct (String.index 0 unit value).
Qed.

Lemma parse_numeric_value_reading value unit :
  Enhanced._parse_numeric_value py_float value unit
  = Spec.reading py_float unit value.
Proof.
  unfold Enhanced._parse_numeric_value, Spec.reading.
  rewrite split_head_before_token.
  now destruct (py_float _).
Qed.

(** C7.  For every payload that is a JSON object, each of the fields
    rainfall, temperature and humidity is read as the number in front of
    its unit token, a field where no number is found there is read as 0.0
    on its own, and the gateway returns the full observation: it never
    answers with an absent observation or raises for such a payload. *)
Theorem field_parse_failure_degrades_to_zero location day data log :
  http_get (Eff.mkRequest location day 12) = Eff.JsonObject data ->
  get_weather_data location day log
  = (Eff.Ok (Some
       {| obs_rainfall :=
            Spec.reading py_float "mm" (Enhanced.get_field data "rainfall");
          obs_temperature :=
            Spec.reading py_float Enhanced.degree_token
                         (Enhanced.get_field data "temperature");
          obs_humidity :=
            Spec.reading py_float "%" (Enhanced.get_field data "humidity") |}),
     (log ++ [Eff.mkRequest location day 12])%list)
  /\ (forall unit value,
         py_float (PyStr.strip (Spec.before_token unit value)) = None ->
         Spec.reading py_float unit value == 0).
Proof.
  intro Hresp. split.
  - unfold Enhanced.get_weather_data, Eff.bind, Eff.get. rewrite Hresp.
    unfold Eff.ret. now rewrite !parse_numeric_value_reading.
  - intros unit value Hfail. unfold Spec.reading. now rewrite Hfail.
Qed.

End EngineProperties.

(** A rain claim without a severity, and a drought claim over 3 days. *)
Lemma invalid_claim_rejected_without_fetch_witness :
  (exists reason,
      Enhanced.analyze_claim
        Sample.sqrt
        (Enhanced.mkClaim
           (list_to_map [("Location", "Lagos"); ("Date", "2024-01-15");
                         ("Event Type", "rain")])
           (Some 7%Z))
        []
      = (Eff.Ok (Spec.invalid_claim reason), []))
  /\ (exists reason,
        Enhanced.analyze_claim
          Sample.sqrt
          (Enhanced.mkClaim
             (list_to_map [("Location", "Kano"); ("Date", "2024-04-15");
                           ("Event Type", "Drought"); ("Severity", "Severe")])
             (Some 3%Z))
          []
        = (Eff.Ok (Spec.invalid_claim reason), [])).
Proof.
  split.
  - destruct (invalid_claim_rejected_without_fetch
                Sample.sqrt
                (Enhanced.mkClaim
                   (list_to_map [("Location", "Lagos"); ("Date", "2024-01-15");
                                 ("Event Type", "rain")])
                   (Some 7%Z)))
      as [reason [_ [_ [Hverdict _]]]].
    + left. exists "Severity". split; [simpl; tauto | reflexivity].
    + exists reason. apply Hverdict.
  - destruct (invalid_claim_rejected_without_fetch
                Sample.sqrt
                (Enhanced.mkClaim
                   (list_to_map [("Location", "Kano"); ("Date", "2024-04-15");
                                 ("Event Type", "Drought");
                                 ("Severity", "Severe")])
                   (Some 3%Z)))
      as [reason [_ [_ [Hverdict _]]]].
    + right. split; reflexivity.
    + exists reason. apply Hverdict.
Defined.

(** A payload whose temperature is not a number: the observation is
    returned, with the temperature alone read as 0. *)
Lemma field_parse_failure_degrades_to_zero_witness :
  Enhanced.get_weather_data Sample.corrupt_provider Sample.py_float
                            "Lagos" "2024-01-15" []
  = (Eff.Ok (Some (mkObservation 12.3 0 55)),
     [Eff.mkRequest "Lagos" "2024-01-15" 12]).
Proof.
  exact (proj1 (field_parse_failure_degrades_to_zero
                  Sample.corrupt_provider Sample.py_float
                  "Lagos" "2024-01-15" Sample.corrupt_readings [] eq_refl)).
Defined.

(** ** Maximal runs *)

(** Decoding the runs gives the sequence back. *)
Lemma runs_expand (l : list bool) :
  flat_map (fun r : bool * nat => repeat (fst r) (snd r)) (Runs.runs l) = l.
Proof.
  induction l as [|b l IH]; [reflexivity|].
  simpl. destruct (Runs.runs l) as [|[b' n] rs].
  - simpl in *. now rewrite <- IH.
  - destruct (Bool.eqb b b') eqn:Hb.
    + apply eqb_prop in Hb. subst b'. simpl in *. now rewrite IH.
    + simpl in *. now rewrite IH.
Qed.


Lemma runs_maximal (l : list bool) : Runs.maximal_runs (Runs.runs l).
Proof.
  induction l as [|b l IH]; [exact I|].
  simpl. destruct (Runs.runs l) as [|[b' n] rs].
  - simpl. repeat split. lia.
  - destruct (Bool.eqb b b') eqn:Hb.
    + simpl in *. destruct IH as [_ IH]. split; [lia | exact IH].
    + apply eqb_false_iff in Hb. simpl in *. repeat split; try tauto. lia.
Qed.

Lemma runs_head (b : bool) (l : list bool) :
  exists n rs, Runs.runs (b :: l) = (b, n) :: rs.
Proof.
  simpl. destruct (Runs.runs l) as [|[b' n] rs]; [now eexists _, _|].
  destruct (Bool.eqb b b') eqn:Hb; [|now eexists _, _].
  apply eqb_prop in Hb. subst b'. now eexists _, _.
Qed.

(** ** The consecutive-dry-days computation *)

Lemma ne_shift (b : bool) (l : list bool) :
  Pandas.ne l (map Some (removelast (b :: l))) = Pandas.changes b l.
Proof.
  revert b. induction l as [|b' l IH]; intro b; [reflexivity|].
  change (removelast (b :: b' :: l)) with (b :: removelast (b' :: l)).
  cbn [map Pandas.ne Pandas.changes]. now rewrite IH.
Qed.

Lemma groupby_sum_cons {K V} (cmp : K -> K -> comparison) (add : V -> V -> V)
    k ks v vs :
  Pandas.groupby_sum cmp add (k :: ks) (v :: vs)
  = Pandas.insert_add cmp add k v (Pandas.groupby_sum cmp add ks vs).
Proof. reflexivity. Qed.

Lemma compare_next (k : nat) : (k ?= k + 1)%nat = Lt.
Proof. apply Nat.compare_lt_iff. lia. Qed.

(** Grouping a boolean series by the running count of its changes gives one
    group per maximal run, in order. *)
Lemma groupby_runs (l : list bool) : forall k prev,
  Pandas.groupby_sum Nat.compare Nat.add
    (k :: Pandas.cumsum_from k (Pandas.changes prev l))
    (map Pandas.nat_of_bool (prev :: l))
  = Runs.keyed_runs k (Runs.runs (prev :: l)).
Proof.
  induction l as [|b l IH]; intros k prev.
  - simpl. unfold Runs.keyed_runs, Runs.run_sum. simpl. now destruct prev.
  - change (Pandas.changes prev (b :: l))
      with (xorb b prev :: Pandas.changes b l).
    cbn [Pandas.cumsum_from].
    set (k' := (k + (if xorb b prev then 1 else 0))%nat).
    change (map Pandas.nat_of_bool (prev :: b :: l))
      with (Pandas.nat_of_bool prev :: map Pandas.nat_of_bool (b :: l)).
    rewrite groupby_sum_cons, (IH k' b).
    change (Runs.runs (prev :: b :: l))
      with (match Runs.runs (b :: l) with
            | [] => [(prev, 1%nat)]
            | (b', n) :: rs =>
                if Bool.eqb prev b' then (b', S n) :: rs
                else (prev, 1%nat) :: (b', n) :: rs
            end).
    destruct (runs_head b l) as [n [rs Hruns]]. rewrite Hruns.
    unfold Runs.keyed_runs. cbn [length seq map combine Pandas.insert_add].
    destruct prev, b; subst k'; cbn [xorb Bool.eqb Runs.run_sum fst snd];
      rewrite ?Nat.add_0_r, ?Nat.compare_refl; try reflexivity;
      rewrite compare_next;
      cbn [length seq map combine Runs.run_sum fst snd Pandas.nat_of_bool];
      now rewrite Nat.add_1_r.
Qed.

Lemma keyed_runs_sums k rs :
  map snd (Runs.keyed_runs k rs) = map Runs.run_sum rs.
Proof.
  unfold Runs.keyed_runs. revert k.
  induction rs as [|r rs IH]; intro k; [reflexivity|].
  simpl. now rewrite IH.
Qed.

Lemma fold_max_from (x : nat) (l : list nat) :
  fold_right Nat.max x l = Nat.max x (fold_right Nat.max 0%nat l).
Proof. induction l as [|y l IH]; simpl; [lia | rewrite IH; lia]. Qed.

Lemma max_run_sum rs :
  fold_right Nat.max 0%nat (map Runs.run_sum rs)
  = fold_right Nat.max 0%nat
      (map snd (filter (fun r : bool * nat => fst r) rs)).
Proof.
  induction rs as [|[b n] rs IH]; [reflexivity|].
  simpl. rewrite IH. unfold Runs.run_sum. simpl. now destruct b.
Qed.

(** On a non-empty series the computation returns the length of the longest
    run of days below the threshold. *)
Lemma count_consecutive_longest_run (rainfall : list Q) (threshold : Q) :
  rainfall <> [] ->
  Earlier._count_consecutive_low_rainfall_days rainfall threshold
  = Some (Runs.longest_true_run
            (map (fun r => Num.ltb r threshold) rainfall)).
Proof.
  intro Hne. unfold Earlier._count_consecutive_low_rainfall_days.
  destruct rainfall as [|r rainfall]; [contradiction|].
  cbn [map]. set (b := Num.ltb r threshold).
  set (l := map (fun r => Num.ltb r threshold) rainfall).
  unfold Pandas.shift, Pandas.cumsum. cbn [Pandas.ne].
  rewrite ne_shift. cbn [Pandas.cumsum_from Nat.add].
  change (Pandas.nat_of_bool b :: map Pandas.nat_of_bool l)
    with (map Pandas.nat_of_bool (b :: l)).
  rewrite groupby_runs, keyed_runs_sums.
  unfold Runs.longest_true_run, Runs.true_run_lengths.
  rewrite <- max_run_sum.
  destruct (runs_head b l) as [n [rs Hruns]]. rewrite Hruns.
  cbn [map Pandas.max_nat]. rewrite fold_max_from. reflexivity.
Qed.

Lemma no_true_run (l : list bool) :
  Forall (fun b => b = false) l ->
  filter (fun r : bool * nat => fst r) (Runs.runs l) = [].
Proof.
  induction 1 as [|b l Hb Hl IH]; [reflexivity|].
  subst b. simpl. destruct (Runs.runs l) as [|[b' n] rs]; [reflexivity|].
  simpl in IH. destruct b'; [discriminate|]. simpl. exact IH.
Qed.

(** C4, as amended.  On every non-empty rainfall series the
    consecutive-dry-days computation, which marks a day as dry exactly when
    its rainfall is below 0.1 and sums the dry flags over the maximal runs
    of identical flags, returns the length of the longest dry run, and 0
    when no day is dry; on the empty series it returns NaN.  For the series
    0.0, 0.05, 5.0, 0.02, 0.0, 0.0 the dry runs have lengths 2 and 3 and the
    result is 3. *)
Theorem longest_dry_run_of_series :
  (forall rainfall,
      rainfall <> [] ->
      Earlier._count_consecutive_low_rainfall_days rainfall
                                                   Earlier.default_threshold
      = Some (Spec.longest_dry_run rainfall))
  /\ (forall rainfall,
        rainfall <> [] ->
        Forall (fun r => Spec.dry r = false) rainfall ->
        Earlier._count_consecutive_low_rainfall_days rainfall
                                                     Earlier.default_threshold
        = Some 0%nat)
  /\ Earlier._count_consecutive_low_rainfall_days [] Earlier.default_threshold
     = None
  /\ Spec.dry_run_lengths Sample.rainfall_series = [2%nat; 3%nat]
  /\ Earlier._count_consecutive_low_rainfall_days Sample.rainfall_series
                                                  Earlier.default_threshold
     = Some 3%nat.
Proof.
  split; [|split; [|repeat split]].
  - intros rainfall Hne. now apply count_consecutive_longest_run.
  - intros rainfall Hne Hwet.
    rewrite count_consecutive_longest_run by exact Hne.
    unfold Runs.longest_true_run, Runs.true_run_lengths.
    rewrite no_true_run; [reflexivity|].
    apply Forall_map. exact Hwet.
Qed.

Lemma longest_dry_run_of_series_witness :
  Earlier._count_consecutive_low_rainfall_days [0.3; 0; 0.09; 0; 1.2; 0.05]
                                               Earlier.default_threshold
  = Some 3%nat
  /\ Earlier._count_consecutive_low_rainfall_days [0.3; 4; 1.2]
                                                  Earlier.default_threshold
     = Some 0%nat.
Proof.
  split.
  - apply (proj1 longest_dry_run_of_series [0.3; 0; 0.09; 0; 1.2; 0.05]).
    discriminate.
  - apply (proj1 (proj2 longest_dry_run_of_series) [0.3; 4; 1.2]).
    + discriminate.
    + repeat constructor.
Defined.

(** C4, as stated, fails on its own example: on the series 0.0, 0.05, 5.0,
    0.02, 0.0, 0.0 the dry run lengths are not 2, 1, 2 and the result is
    not 2, since the last three days are all dry. *)
Lemma dry_run_example_is_not_two :
  Spec.dry_run_lengths Sample.rainfall_series <> [2%nat; 1%nat; 2%nat]
  /\ Earlier._count_consecutive_low_rainfall_days Sample.rainfall_series
                                                  Earlier.default_threshold
     <> Some 2%nat.
Proof. split; vm_compute; discriminate. Qed.

(** ** The methods that the enhanced validator lacks *)

Section MissingMethods.
Variable sqrt : Q -> Q.

Lemma analyze_drought_event_raises (data : list row) log :
  Enhanced._analyze_drought_event data log
  = (Eff.Raise Eff.AttributeError, log).
Proof. reflexivity. Qed.

Lemma analyze_historical_context_raises
    (data : list row) (event_type severity : string) log :
  data <> [] ->
  Enhanced._analyze_historical_context sqrt data event_type severity log
  = (Eff.Raise Eff.AttributeError, log).
Proof. intro Hdata. destruct data; [contradiction | reflexivity]. Qed.

Lemma analyze_claim_accepted_raises c log :
  fst (Enhanced._validate_claim_inputs c) = true ->
  Enhanced.analyze_claim sqrt c log = (Eff.Raise Eff.AttributeError, log).
Proof.
  intro Hvalid. unfold Enhanced.analyze_claim.
  destruct (Enhanced._validate_claim_inputs c) as [is_valid message].
  simpl in Hvalid. subst is_valid. reflexivity.
Qed.

Lemma analyze_claim_rejected c log :
  fst (Enhanced._validate_claim_inputs c) = false ->
  Enhanced.analyze_claim sqrt c log
  = (Eff.Ok {| Enhanced.validation_status := "Invalid Claim";
               Enhanced.error_message :=
                 snd (Enhanced._validate_claim_inputs c);
               Enhanced.historical_analysis := None;
               Enhanced.data_period := None;
               Enhanced.location := None |}, log).
Proof.
  intro Hinvalid. unfold Enhanced.analyze_claim.
  destruct (Enhanced._validate_claim_inputs c) as [is_valid message].
  simpl in Hinvalid. subst is_valid. reflexivity.
Qed.

(** C8, on the code.  No window analysed for a drought event is given a
    temperature anomaly.  [_analyze_drought_event] asks for the dry spell
    first, through a method that the class does not have, and raises
    [AttributeError] before the anomaly is computed, whatever the window;
    [_analyze_historical_context] raises it on every non-empty window,
    whatever the event type; and [analyze_claim] raises it for every
    drought claim that passes validation, before a request is sent. *)
Theorem drought_analysis_raises_attribute_error :
  (forall data log,
      Enhanced._analyze_drought_event data log
      = (Eff.Raise Eff.AttributeError, log))
  /\ (forall data event_type severity log,
        data <> [] ->
        Enhanced._analyze_historical_context sqrt data event_type severity log
        = (Eff.Raise Eff.AttributeError, log))
  /\ (forall c log,
        fst (Enhanced._validate_claim_inputs c) = true ->
        Spec.is_drought c = true ->
        Enhanced.analyze_claim sqrt c log
        = (Eff.Raise Eff.AttributeError, log)).
Proof.
  split; [exact analyze_drought_event_raises|].
  split; [exact analyze_historical_context_raises|].
  intros c log Hvalid _. now apply analyze_claim_accepted_raises.
Qed.

End MissingMethods.

(** A week at 0 degrees that ends with a day at 7 degrees, and a drought
    claim over 30 days. *)
Lemma drought_analysis_raises_attribute_error_witness :
  Enhanced._analyze_drought_event (Sample.week [0; 0; 0; 0; 0; 0; 7]) []
  = (Eff.Raise Eff.AttributeError, [])
  /\ Enhanced._analyze_historical_context
       Sample.sqrt (Sample.week [0; 0; 0; 0; 0; 0; 7]) "drought" "Severe" []
     = (Eff.Raise Eff.AttributeError, [])
  /\ Enhanced.analyze_claim Sample.sqrt Sample.drought_claim []
     = (Eff.Raise Eff.AttributeError, []).
Proof.
  destruct (drought_analysis_raises_attribute_error Sample.sqrt)
    as [Hevent [Hcontext Hclaim]].
  split; [apply Hevent|]. split.
  - apply Hcontext. discriminate.
  - apply Hclaim; reflexivity.
Defined.

(** ** The rainfall anomaly of the earlier validator *)

(** The binary64 constants are the doubles nearest to the decimal
    literals they stand for. *)
Lemma literals_are_nearest :
  F64.nearest 1 10 F64.tenth = true
  /\ F64.nearest 95 100 F64.q95 = true
  /\ F64.nearest 9 10 F64.q90 = true
  /\ F64.nearest 1 2 F64.half = true
  /\ F64.nearest 1 (10 ^ 147) F64.tiny = true.
Proof. repeat split; vm_compute; reflexivity. Qed.

Lemma div_by_nan (x : F64.float) : F64.div x F64.nan = F64.nan.
Proof. now destruct x. Qed.

Lemma nan_not_above (y : F64.float) : F64.gtb F64.nan y = false.
Proof. now destruct y. Qed.

Lemma dropna_length (l : list F64.float) :
  (length (Pandas64.dropna l) <= length l)%nat.
Proof. apply List.filter_length_le. Qed.

Lemma std_of_short_series (l : list F64.float) :
  (length l <= 1)%nat -> Pandas64.std l = F64.nan.
Proof.
  intro Hshort. unfold Pandas64.std, Pandas64.var.
  pose proof (dropna_length l) as Hdrop.
  destruct (Nat.leb_spec (length (Pandas64.dropna l)) 1); [reflexivity | lia].
Qed.

Lemma z_score_of_short_window (window : list Earlier64.row) :
  (length window <= 1)%nat ->
  Earlier64.z_score (Earlier64._compute_rainfall_anomaly window) = F64.nan.
Proof.
  intro Hshort. unfold Earlier64._compute_rainfall_anomaly.
  cbn [Earlier64.z_score].
  rewrite std_of_short_series by now rewrite length_map.
  apply div_by_nan.
Qed.

(** Rounding keeps the sign: the result of an operation is NaN or has the
    sign that the operation gives it. *)
Lemma round_aux_sign s m e l :
  F64.signed_or_nan s (SpecFloat.binary_round_aux F64.prec F64.emax s m e l).
Proof.
  unfold SpecFloat.binary_round_aux.
  destruct (SpecFloat.shr_fexp _ _ m e l) as [mrs e'].
  destruct (SpecFloat.shr_fexp _ _ _ e' _) as [mrs' e''].
  destruct (SpecFloat.shr_m mrs'); [reflexivity | | exact I].
  destruct (Z.leb _ _); reflexivity.
Qed.

Lemma round_sign s m e :
  F64.signed_or_nan s (SpecFloat.binary_round F64.prec F64.emax s m e).
Proof.
  unfold SpecFloat.binary_round.
  destruct (SpecFloat.shl_align _ _ _) as [mz ez]. apply round_aux_sign.
Qed.

Lemma square_nonneg d : F64.signed_or_nan false (F64.mul d d).
Proof.
  destruct d as [s|s| |s m e]; try exact I; simpl; try now destruct s.
  unfold F64.mul, SpecFloat.SFmul.
  replace (xorb s s) with false by now destruct s.
  apply round_aux_sign.
Qed.

Lemma add_nonneg x y :
  F64.signed_or_nan false x -> F64.signed_or_nan false y ->
  F64.signed_or_nan false (F64.add x y).
Proof.
  destruct x as [sx|sx| |sx mx ex], y as [sy|sy| |sy my ey]; simpl;
    intros Hx Hy; subst; try exact I; try reflexivity.
  unfold F64.add, SpecFloat.SFadd. cbn [SpecFloat.cond_Zopp Z.add].
  apply round_sign.
Qed.

Lemma total_nonneg (l : list F64.float) (acc : F64.float) :
  F64.signed_or_nan false acc ->
  Forall (F64.signed_or_nan false) l ->
  F64.signed_or_nan false (fold_left F64.add l acc).
Proof.
  intros Hacc Hl. revert acc Hacc.
  induction Hl as [|x l Hx Hl IH]; intros acc Hacc; [exact Hacc|].
  simpl. apply IH. now apply add_nonneg.
Qed.

Lemma div_nonneg x y :
  F64.signed_or_nan false x -> F64.signed_or_nan false y ->
  F64.signed_or_nan false (F64.div x y).
Proof.
  destruct x as [sx|sx| |sx mx ex], y as [sy|sy| |sy my ey]; simpl;
    intros Hx Hy; subst; try exact I; try reflexivity.
  unfold F64.div, SpecFloat.SFdiv.
  destruct (SpecFloat.SFdiv_core_binary _ _ _ _ _ _) as [[mz ez] lz].
  apply round_aux_sign.
Qed.

Lemma sqrt_nonneg x :
  F64.signed_or_nan false x -> F64.signed_or_nan false (F64.sqrt x).
Proof.
  destruct x as [s|s| |s m e]; simpl; intro Hx; subst; try exact I;
    try reflexivity.
  unfold F64.sqrt, SpecFloat.SFsqrt.
  destruct (SpecFloat.SFsqrt_core_binary _ _ _ _) as [[mz ez] lz].
  apply round_aux_sign.
Qed.

Lemma of_nat_nonneg (n : nat) : F64.signed_or_nan false (F64.of_nat n).
Proof.
  unfold F64.of_nat, F64.of_Z, SpecFloat.binary_normalize.
  destruct (Z.of_nat n) eqn:Hn; [reflexivity | apply round_sign | lia].
Qed.

(** The standard deviation is never negative. *)
Lemma std_nonneg (l : list F64.float) :
  F64.signed_or_nan false (Pandas64.std l).
Proof.
  unfold Pandas64.std, Pandas64.var. apply sqrt_nonneg.
  destruct (length (Pandas64.dropna l) <=? 1)%nat; [exact I|].
  apply div_nonneg; [|apply of_nat_nonneg].
  apply total_nonneg; [reflexivity|].
  apply Forall_map, Forall_forall. intros x _. apply square_nonneg.
Qed.

(** A quotient by a number that is not negative is positive only when
    the numerator is. *)
Lemma quotient_positive a s :
  F64.signed_or_nan false s ->
  F64.gtb (F64.div a s) F64.zero = true -> F64.gtb a F64.zero = true.
Proof.
  destruct a as [sa|sa| |sa ma ea], s as [ss|ss| |ss ms es]; simpl;
    intro Hs; subst; try discriminate; try (now destruct sa).
  unfold F64.div, SpecFloat.SFdiv.
  destruct (SpecFloat.SFdiv_core_binary _ _ _ _ _ _) as [[mz ez] lz].
  pose proof (round_aux_sign (xorb sa false) mz ez lz) as Hsign.
  destruct (SpecFloat.binary_round_aux _ _ _ _ _ _) as [s|s| |s m e];
    simpl in Hsign; subst; try discriminate; now destruct sa.
Qed.

Lemma above_two_positive z :
  F64.gtb z (F64.of_nat 2) = true -> F64.gtb z F64.zero = true.
Proof.
  destruct z as [s|s| |s m e]; try discriminate; now destruct s.
Qed.

Lemma z_score_positive (window : list Earlier64.row) :
  F64.gtb (Earlier64.z_score (Earlier64._compute_rainfall_anomaly window))
          F64.zero = true ->
  F64.gtb (F64.sub (Pandas64.mean (map Earlier64.rainfall window))
                   (Pandas64.max (map Earlier64.rainfall window)))
          F64.zero = true.
Proof.
  unfold Earlier64._compute_rainfall_anomaly. cbn [Earlier64.z_score].
  apply quotient_positive, std_nonneg.
Qed.

(** C10, as amended.  In the earlier validator the z-score of the
    rainfall anomaly is the quotient of mean minus maximum by the standard
    deviation, in binary64.  The standard deviation is never negative, so
    the z-score is above 0 only when the difference mean minus maximum, as
    computed, is above 0: when rounding has made the mean exceed the
    maximum.  On a window of at most one row the standard deviation, and
    with it the z-score, is NaN.  So the branch that asks for severity
    'Heavy' and a z-score above 2 fires, and the verdict 'Partially
    Validated - Significant Rainfall Anomaly' is given, only for a claim of
    severity 'Heavy' over a window of at least two rows on which the
    rounded mean exceeds the maximum. *)
Theorem significant_anomaly_needs_mean_above_max
    (window : list Earlier64.row) (event_type severity : option string) :
  Earlier64.z_score (Earlier64._compute_rainfall_anomaly window)
  = F64.div (F64.sub (Pandas64.mean (map Earlier64.rainfall window))
                     (Pandas64.max (map Earlier64.rainfall window)))
            (Pandas64.std (map Earlier64.rainfall window))
  /\ (F64.gtb (Earlier64.z_score (Earlier64._compute_rainfall_anomaly window))
              F64.zero = true ->
      F64.gtb (F64.sub (Pandas64.mean (map Earlier64.rainfall window))
                       (Pandas64.max (map Earlier64.rainfall window)))
              F64.zero = true)
  /\ ((length window <= 1)%nat ->
      Pandas64.std (map Earlier64.rainfall window) = F64.nan
      /\ Earlier64.z_score (Earlier64._compute_rainfall_anomaly window)
         = F64.nan)
  /\ (Earlier64._determine_claim_validity
        (Earlier64._analyze_historical_context window event_type severity)
        event_type severity
      = "Partially Validated - Significant Rainfall Anomaly" ->
      (2 <= length window)%nat
      /\ severity = Some "Heavy"
      /\ F64.gtb (F64.sub (Pandas64.mean (map Earlier64.rainfall window))
                          (Pandas64.max (map Earlier64.rainfall window)))
                 F64.zero = true).
Proof.
  split; [reflexivity|]. split; [apply z_score_positive|]. split.
  { intro Hshort. split; [|now apply z_score_of_short_window].
    apply std_of_short_series. now rewrite length_map. }
  unfold Earlier64._determine_claim_validity,
    Earlier64._analyze_historical_context.
  destruct window as [|r window'] eqn:Hwindow.
  - destruct (Earlier.is_str event_type "rain"
              || Earlier.is_str event_type "flood").
    + destruct (Earlier.is_str severity "Heavy"); discriminate.
    + destruct (Earlier.is_str event_type "drought"); discriminate.
  - rewrite <- Hwindow. clear Hwindow.
    destruct (Earlier.is_str event_type "rain"
              || Earlier.is_str event_type "flood").
    + destruct (Earlier64.is_extreme _); [discriminate|].
      destruct (Earlier.is_str severity "Heavy") eqn:Hheavy;
        [|discriminate].
      destruct (F64.gtb _ (F64.of_nat 2)) eqn:Habove; [|discriminate].
      intros _. split; [|split].
      * destruct (Nat.le_gt_cases (length window) 1) as [Hshort|Hlong];
          [|exact Hlong].
        rewrite z_score_of_short_window, nan_not_above in Habove
          by exact Hshort.
        discriminate.
      * destruct severity as [sev|]; [|discriminate].
        simpl in Hheavy. unfold PyStr.eqb in Hheavy.
        apply String.eqb_eq in Hheavy. now subst sev.
      * now apply z_score_positive, above_two_positive.
    + destruct (Earlier.is_str event_type "drought"); [|discriminate].
      destruct (match Earlier64.consecutive_dry_days _ with
                | Some n => (0 <? n)%nat
                | None => false
                end); discriminate.
Qed.

(** Three days with 1e-147 mm of rain each, claimed as heavy rain; and a
    single such day. *)
Lemma significant_anomaly_needs_mean_above_max_witness :
  F64.gtb (F64.sub (Pandas64.mean (map Earlier64.rainfall Sample64.trace_rain))
                   (Pandas64.max (map Earlier64.rainfall Sample64.trace_rain)))
          F64.zero = true
  /\ Earlier64.z_score
       (Earlier64._compute_rainfall_anomaly (Sample64.window F64.tiny 1))
     = F64.nan.
Proof.
  split.
  - apply (proj2 (proj2 (proj2 (significant_anomaly_needs_mean_above_max
                                  Sample64.trace_rain
                                  (Some "rain") (Some "Heavy"))))).
    vm_compute. reflexivity.
  - apply (proj1 (proj2 (proj2 (significant_anomaly_needs_mean_above_max
                                  (Sample64.window F64.tiny 1)
                                  (Some "rain") (Some "Heavy"))))).
    simpl. lia.
Defined.

(** C10, as stated, fails.  The mean of a series can exceed its maximum:
    over three days with 0.1 mm of rain each the rounded mean is above 0.1,
    so that the z-score is above 0 although the standard deviation is
    positive.  And the branch can fire: over three days with 1e-147 mm
    each the mean is above the maximum again, the squares of the
    deviations underflow, the standard deviation is 0 and the z-score is
    plus infinity, so that a rain claim of severity 'Heavy' is given the
    verdict 'Partially Validated - Significant Rainfall Anomaly'. *)
Lemma significant_anomaly_verdict_reached :
  (F64.gtb (Pandas64.mean (map Earlier64.rainfall Sample64.light_rain))
           (Pandas64.max (map Earlier64.rainfall Sample64.light_rain)) = true
   /\ F64.gtb (Pandas64.std (map Earlier64.rainfall Sample64.light_rain))
              F64.zero = true
   /\ F64.gtb (Earlier64.z_score
                 (Earlier64._compute_rainfall_anomaly Sample64.light_rain))
              F64.zero = true)
  /\ (F64.gtb (Pandas64.mean (map Earlier64.rainfall Sample64.trace_rain))
              (Pandas64.max (map Earlier64.rainfall Sample64.trace_rain))
      = true
      /\ Pandas64.std (map Earlier64.rainfall Sample64.trace_rain) = F64.zero
      /\ Earlier64._compute_rainfall_anomaly Sample64.trace_rain
         = Earlier64.mkRainfallAnomaly F64.infinity false
      /\ Earlier64._determine_claim_validity
           (Earlier64._analyze_historical_context
              Sample64.trace_rain (Some "rain") (Some "Heavy"))
           (Some "rain") (Some "Heavy")
         = "Partially Validated - Significant Rainfall Anomaly").
Proof. repeat split; vm_compute; reflexivity. Qed.

(** ** The window builder *)

Lemma last_check_date (f : Z -> string) (n : Z) :
  (1 <= n)%Z ->
  fold_left (fun _ day => Some (f day)) (Earlier.range n) None
  = Some (f (n - 1)%Z).
Proof.
  intro Hn. unfold Earlier.range.
  replace (Z.to_nat n) with (S (Z.to_nat (n - 1))) by lia.
  rewrite seq_S, map_app, fold_left_app. simpl.
  do 2 f_equal. lia.
Qed.

Section WindowBuilder.
Variable http_get : Eff.request -> Eff.response.
Variable py_float : string -> option Q.
Variable strptime : string -> option Z.
Variable strftime : Z -> string.

Local Abbreviation fetch_historical_weather :=
  (Earlier.fetch_historical_weather http_get py_float strptime strftime).

Lemma earlier_get_weather_data_log location day log :
  snd (Earlier.get_weather_data http_get py_float location day log)
  = (log ++ [Eff.mkRequest location day 12])%list.
Proof.
  unfold Earlier.get_weather_data, Eff.bind, Eff.get.
  destruct (http_get _) as [| | | |data]; try reflexivity.
  destruct (Earlier.clean _ _ _); [|reflexivity].
  destruct (Earlier.clean _ _ _); [|reflexivity].
  destruct (Earlier.clean _ _ _); reflexivity.
Qed.

(** C3, on the code.  Whatever number of days is requested, as long as it
    is at least one, the window builder sends the provider a single
    request, for the earliest day of the span, and the window it returns
    has at most one row: the days in between are never asked for. *)
Theorem window_builder_single_request location base_date anchor days log :
  strptime base_date = Some anchor ->
  (1 <= days)%Z ->
  snd (fetch_historical_weather location base_date days log)
  = (log ++ [Eff.mkRequest location (strftime (anchor - (days - 1))) 12])%list
  /\ forall window,
       fst (fetch_historical_weather location base_date days log)
       = Eff.Ok window ->
       (length window <= 1)%nat.
Proof.
  intros Hdate Hdays.
  unfold Earlier.fetch_historical_weather,
    Earlier.fetch_historical_weather_of.
  rewrite Hdate, (last_check_date (fun day => strftime (anchor - day)))
    by exact Hdays.
  unfold Eff.bind.
  pose proof (earlier_get_weather_data_log location
                (strftime (anchor - (days - 1))) log) as Hlog.
  destruct (Earlier.get_weather_data _ _ _ _ _) as [[[h|]|e] log'];
    simpl in Hlog; subst log'; simpl; split; try reflexivity;
    intros window [= <-]; simpl; lia.
Qed.

End WindowBuilder.

Lemma window_builder_single_request_witness :
  snd (Earlier.fetch_historical_weather
         Sample.legacy_provider Sample.py_float Sample.strptime
         Sample.strftime "Lagos" "2024-01-15" 3 [])
  = [Eff.mkRequest "Lagos" "2024-01-13" 12].
Proof.
  apply (window_builder_single_request
           Sample.legacy_provider Sample.py_float Sample.strptime
           Sample.strftime "Lagos" "2024-01-15" 19737 3 []).
  - reflexivity.
  - lia.
Defined.

(** The three days asked for would all have been served, yet the window
    has the single row of 13 January. *)
Example window_of_three_days :
  Earlier.fetch_historical_weather
    Sample.legacy_provider Sample.py_float Sample.strptime Sample.strftime
    "Lagos" "2024-01-15" 3 []
  = (Eff.Ok [mkRow 12.3 18.0 55 "2024-01-13"],
     [Eff.mkRequest "Lagos" "2024-01-13" 12]).
Proof. vm_compute. reflexivity. Qed.

(** ** Unknown event types *)

Lemma unknown_event_type_tests (event_type : string) :
  PyStr.in_list event_type ["rain"; "flood"; "drought"] = false ->
  PyStr.in_list event_type [Enhanced.RAIN; Enhanced.FLOOD] = false
  /\ PyStr.eqb event_type Enhanced.DROUGHT = false.
Proof.
  unfold PyStr.in_list, Enhanced.RAIN, Enhanced.FLOOD, Enhanced.DROUGHT.
  simpl. rewrite !orb_false_r. intro Hunknown.
  apply orb_false_elim in Hunknown as [Hrain Hrest].
  apply orb_false_elim in Hrest as [Hflood Hdrought].
  now rewrite Hrain, Hflood, Hdrought.
Qed.

Section UnknownEventType.
Variable sqrt : Q -> Q.

(** C9, on the code.  A claim whose event type is none of rain, flood and
    drought is not given the verdict 'Unable to Validate - Unknown Event
    Type'.  When it passes validation, [analyze_claim] raises
    [AttributeError] at the lookup of the window builder, before any
    request is sent, and [_analyze_historical_context] raises it on every
    non-empty window: the classification stage is not reached.  The
    classifier itself tests for the [event_specific] record before it looks
    at the event type: given an analysis without the record it answers
    'Unable to Validate - Insufficient Data', and only given one with a
    record does it answer 'Unable to Validate - Unknown Event Type'. *)
Theorem unknown_event_type_never_classified c event_type log :
  fst (Enhanced._validate_claim_inputs c) = true ->
  Enhanced.entries c !! "Event Type" = Some event_type ->
  PyStr.in_list event_type ["rain"; "flood"; "drought"] = false ->
  Enhanced.analyze_claim sqrt c log = (Eff.Raise Eff.AttributeError, log)
  /\ (forall data severity log',
        data <> [] ->
        Enhanced._analyze_historical_context sqrt data event_type severity log'
        = (Eff.Raise Eff.AttributeError, log'))
  /\ (forall rain temp severity,
        Enhanced._determine_claim_validity
          (Enhanced.Analysis rain temp None) event_type severity
        = Eff.Ok "Unable to Validate - Insufficient Data")
  /\ (forall rain temp event_data severity,
        Enhanced._determine_claim_validity
          (Enhanced.Analysis rain temp (Some event_data)) event_type severity
        = Eff.Ok "Unable to Validate - Unknown Event Type").
Proof.
  intros Hvalid _ Hunknown.
  apply unknown_event_type_tests in Hunknown as [Hrain Hdrought].
  split; [now apply analyze_claim_accepted_raises|].
  split; [intros data severity log'; apply analyze_historical_context_raises|].
  split; [reflexivity|].
  intros rain temp event_data severity.
  unfold Enhanced._determine_claim_validity. now rewrite Hrain, Hdrought.
Qed.

End UnknownEventType.

(** A storm claim. *)
Lemma unknown_event_type_never_classified_witness :
  Enhanced.analyze_claim Sample.sqrt Sample.storm_claim []
  = (Eff.Raise Eff.AttributeError, [])
  /\ Enhanced._determine_claim_validity
       (Enhanced.Analysis
          (Enhanced.mkRainfallStats (Some 2) (Some 2) (Some 4) (Some 2)
                                    (Some 0%nat) 4)
          (Enhanced.mkTemperatureStats (Some 20) (Some 21) (Some 19) (Some 2))
          None)
       "storm" "Severe"
     = Eff.Ok "Unable to Validate - Insufficient Data".
Proof.
  destruct (unknown_event_type_never_classified
              Sample.sqrt Sample.storm_claim "storm" [] eq_refl eq_refl eq_refl)
    as [Hclaim [_ [Hwithout _]]].
  split; [exact Hclaim | apply Hwithout].
Defined.

(** * Further properties of the validators *)

(** ** The analysis period *)

(** X1.  The number of days to analyse is at least 1 for every claim, at
    least 7 for a drought claim, and one of 1, 2 and 30 for any other
    claim, whether or not the claim passes validation. *)
Theorem analysis_period_bounds c :
  (1 <= Enhanced._determine_analysis_period c)%Z
  /\ (Spec.is_drought c = true ->
      (7 <= Enhanced._determine_analysis_period c)%Z)
  /\ (Spec.is_drought c = false ->
      In (Enhanced._determine_analysis_period c) [1%Z; 2%Z; 30%Z]).
Proof.
  unfold Enhanced._determine_analysis_period, Spec.is_drought,
    Enhanced.DROUGHT, Enhanced.MONTHLY_DAYS, Enhanced.MIN_DROUGHT_DAYS.
  destruct (PyStr.eqb (PyStr.lower (Enhanced.get_str c "Event Type"))
                      "drought");
    destruct (PyStr.eqb (PyStr.lower (Enhanced.get_str c "Date Descriptor"))
                        "this month");
    try destruct (PyStr.eqb (PyStr.lower (Enhanced.get_str c "Date Descriptor"))
                            "yesterday");
    repeat split; intros; try discriminate; simpl; try lia; tauto.
Qed.

Lemma analysis_period_bounds_witness :
  (7 <= Enhanced._determine_analysis_period
          (Enhanced.mkClaim (list_to_map [("Event Type", "DROUGHT")]) None))%Z
  /\ In (Enhanced._determine_analysis_period Sample.storm_claim)
        [1%Z; 2%Z; 30%Z].
Proof.
  split.
  - apply (proj1 (proj2 (analysis_period_bounds
                           (Enhanced.mkClaim
                              (list_to_map [("Event Type", "DROUGHT")])
                              None)))).
    reflexivity.
  - apply (proj2 (proj2 (analysis_period_bounds Sample.storm_claim))).
    reflexivity.
Defined.

(** ** The enhanced engine *)

Section EngineOutcomes.
Variable sqrt : Q -> Q.

(** X5.  The enhanced engine sends no request at all.  For a claim that
    passes validation [analyze_claim] raises [AttributeError] and leaves
    the request log as it was; a claim that does not pass is answered
    'Invalid Claim' with the message of the validation; no claim is given
    any other verdict. *)
Theorem engine_stops_at_window_builder c :
  (fst (Enhanced._validate_claim_inputs c) = true ->
   forall log,
     Enhanced.analyze_claim sqrt c log = (Eff.Raise Eff.AttributeError, log))
  /\ (fst (Enhanced._validate_claim_inputs c) = false ->
      forall log,
        Enhanced.analyze_claim sqrt c log
        = (Eff.Ok {| Enhanced.validation_status := "Invalid Claim";
                     Enhanced.error_message :=
                       snd (Enhanced._validate_claim_inputs c);
                     Enhanced.historical_analysis := None;
                     Enhanced.data_period := None;
                     Enhanced.location := None |}, log))
  /\ Eff.calls (Enhanced.analyze_claim sqrt c) = [].
Proof.
  split; [intros Hvalid log; now apply analyze_claim_accepted_raises|].
  split; [intros Hinvalid log; now apply analyze_claim_rejected|].
  unfold Eff.calls.
  destruct (fst (Enhanced._validate_claim_inputs c)) eqn:Hvalid.
  - now rewrite analyze_claim_accepted_raises.
  - now rewrite analyze_claim_rejected.
Qed.

End EngineOutcomes.

(** A flood claim described as of yesterday, which passes validation. *)
Lemma engine_stops_at_window_builder_witness :
  Enhanced.analyze_claim Sample.sqrt Sample.flood_claim
                         [Eff.mkRequest "Kano" "2024-04-15" 12]
  = (Eff.Raise Eff.AttributeError, [Eff.mkRequest "Kano" "2024-04-15" 12]).
Proof.
  exact (proj1 (engine_stops_at_window_builder Sample.sqrt Sample.flood_claim)
               eq_refl [Eff.mkRequest "Kano" "2024-04-15" 12]).
Defined.

(** ** Counting the dry days *)

Lemma range_nonpositive (n : Z) : (n <= 0)%Z -> Earlier.range n = [].
Proof.
  intro Hn. unfold Earlier.range.
  now replace (Z.to_nat n) with 0%nat by lia.
Qed.

Lemma count_true_cons (b : bool) (l : list bool) :
  Runs.count_true (b :: l)
  = (Pandas.nat_of_bool b + Runs.count_true l)%nat.
Proof. unfold Runs.count_true. rewrite filter_cons. now destruct b. Qed.

Lemma run_sums_count_true (l : list bool) :
  fold_right Nat.add 0%nat (map Runs.run_sum (Runs.runs l))
  = Runs.count_true l.
Proof.
  induction l as [|b l IH]; [reflexivity|].
  rewrite count_true_cons, <- IH.
  simpl Runs.runs. destruct (Runs.runs l) as [|[b' n] rs].
  - now destruct b.
  - destruct (Bool.eqb b b') eqn:Hb.
    + apply eqb_prop in Hb. subst b'.
      destruct b; unfold Runs.run_sum; simpl; lia.
    + destruct b; unfold Runs.run_sum; simpl; lia.
Qed.

Lemma bool_eq_iff (a b : bool) : (a = true <-> b = true) -> a = b.
Proof.
  destruct a, b; intros [H1 H2]; try reflexivity;
    [symmetry; now apply H1 | now apply H2].
Qed.


(** ** Verdicts of the earlier validator *)

Lemma fold_max_pos_iff (l : list nat) :
  (0 < fold_right Nat.max 0 l)%nat <-> (0 < fold_right Nat.add 0 l)%nat.
Proof. induction l as [|x l IH]; simpl; lia. Qed.

Lemma count_true_pos_iff (l : list bool) :
  (0 < Runs.count_true l)%nat <-> existsb (fun b => b) l = true.
Proof.
  induction l as [|b l IH].
  - split; [|discriminate].
    change (Runs.count_true []) with 0%nat. lia.
  - rewrite count_true_cons. destruct b; simpl; [split; [reflexivity | lia]|].
    exact IH.
Qed.

Lemma existsb_flags {A} (f : A -> bool) (l : list A) :
  existsb (fun b : bool => b) (map f l) = existsb f l.
Proof. induction l as [|x l IH]; simpl; [reflexivity | now rewrite IH]. Qed.

Lemma longest_run_pos_iff (l : list bool) :
  (0 <? Runs.longest_true_run l)%nat = existsb (fun b => b) l.
Proof.
  apply bool_eq_iff. rewrite Nat.ltb_lt, <- count_true_pos_iff.
  unfold Runs.longest_true_run, Runs.true_run_lengths.
  rewrite <- max_run_sum, <- run_sums_count_true. apply fold_max_pos_iff.
Qed.

(** X13.  In the earlier validator a drought claim over a non-empty window
    is validated as soon as one day of the window is dry: the verdict is
    'Validated - Drought Conditions' when some day has less than 0.1 mm of
    rain and 'Inconclusive - Need Further Investigation' when none has,
    whatever the severity and the length of the dry spell. *)
Theorem earlier_drought_validated_by_one_dry_day
    (sqrt : Q -> Q) (data : list row) (severity : option string) :
  data <> [] ->
  Earlier._determine_claim_validity
    (Earlier._analyze_historical_context sqrt data (Some "drought") severity)
    (Some "drought") severity
  = if existsb Spec.dry (map rainfall data)
    then "Validated - Drought Conditions"
    else "Inconclusive - Need Further Investigation".
Proof.
  intro Hdata. destruct data as [|r data]; [contradiction|].
  unfold Earlier._analyze_historical_context,
    Earlier._determine_claim_validity.
  change (Earlier.is_str (Some "drought") "rain"
          || Earlier.is_str (Some "drought") "flood") with false.
  change (Earlier.is_str (Some "drought") "drought") with true.
  cbv iota. unfold Earlier._compute_drought_indicators.
  cbn [Earlier.consecutive_dry_days].
  rewrite count_consecutive_longest_run by discriminate.
  change (fun r0 : Q => Num.ltb r0 Earlier.default_threshold) with Spec.dry.
  rewrite longest_run_pos_iff, existsb_flags. reflexivity.
Qed.

Lemma earlier_drought_validated_by_one_dry_day_witness :
  Earlier._determine_claim_validity
    (Earlier._analyze_historical_context
       Sample.sqrt
       (map (fun r => mkRow r 25 40 "2024-04-15") [12; 0.05; 30])
       (Some "drought") (Some "Mild"))
    (Some "drought") (Some "Mild")
  = "Validated - Drought Conditions".
Proof.
  apply (earlier_drought_validated_by_one_dry_day
           Sample.sqrt
           (map (fun r => mkRow r 25 40 "2024-04-15") [12; 0.05; 30])
           (Some "Mild")).
  discriminate.
Defined.

Section EarlierWindow.
Variable http_get : Eff.request -> Eff.response.
Variable py_float : string -> option Q.
Variable strptime : string -> option Z.
Variable strftime : Z -> string.
Variable sqrt : Q -> Q.




End EarlierWindow.


(** ** Reading a unit-suffixed value *)

Lemma prefix_app (u rest : string) : String.prefix u (u ++ rest) = true.
Proof.
  induction u as [|c u IH]; [now destruct rest|].
  simpl. destruct (ascii_dec c c); [exact IH | contradiction].
Qed.

Lemma split_head_at_token (number rest : string) (u : ascii) (us : string) :
  (forall c, In c (list_ascii_of_string number) -> c <> u) ->
  PyStr.split_head (String u us) (number ++ String u us ++ rest) = number.
Proof.
  induction number as [|c number IH]; intro Hfree.
  - change (EmptyString ++ String u us ++ rest)
      with (String u (us ++ rest)).
    change (PyStr.split_head (String u us) (String u (us ++ rest)))
      with (if String.prefix (String u us) (String u us ++ rest)
            then EmptyString
            else String u (PyStr.split_head (String u us) (us ++ rest))).
    now rewrite prefix_app.
  - change (String c number ++ String u us ++ rest)
      with (String c (number ++ String u us ++ rest)).
    change (PyStr.split_head (String u us)
              (String c (number ++ String u us ++ rest)))
      with (if String.prefix (String u us)
                 (String c (number ++ String u us ++ rest))
            then EmptyString
            else String c (PyStr.split_head (String u us)
                             (number ++ String u us ++ rest))).
    assert (Hc : c <> u) by (apply Hfree; now left).
    replace (String.prefix (String u us)
               (String c (number ++ String u us ++ rest))) with false.
    + rewrite IH; [reflexivity|].
      intros c' Hin. apply Hfree. now right.
    + simpl. destruct (ascii_dec u c); [congruence | reflexivity].
Qed.

Section Reading.
Variable py_float : string -> option Q.

(** X15.  The gateway reads a value up to its unit token and ignores all
    that follows: when the first character of the token does not occur in
    the text before it, the value read is the number that text spells,
    white space at its ends not counting, and 0.0 when it spells none. *)
Theorem reading_stops_at_unit_token
    (number rest : string) (u : ascii) (us : string) :
  (forall c, In c (list_ascii_of_string number) -> c <> u) ->
  Enhanced._parse_numeric_value py_float (number ++ String u us ++ rest)
                                (String u us)
  = default 0 (py_float (PyStr.strip number)).
Proof.
  intro Hfree. unfold Enhanced._parse_numeric_value.
  rewrite split_head_at_token by exact Hfree.
  now destruct (py_float _).
Qed.

End Reading.

Lemma reading_stops_at_unit_token_witness :
  Enhanced._parse_numeric_value Sample.py_float "12.3 mm/h (gauge 7)" "mm"
  = 12.3.
Proof.
  apply (reading_stops_at_unit_token
           Sample.py_float "12.3 " "/h (gauge 7)" "m" "m").
  intros c Hin. simpl in Hin.
  repeat (destruct Hin as [<- | Hin]; [discriminate|]).
  contradiction.
Defined.

(** ** The window builder at its edges *)

Section BuilderEdges.
Variable http_get : Eff.request -> Eff.response.
Variable py_float : string -> option Q.
Variable strptime : string -> option Z.
Variable strftime : Z -> string.

(** X16.  The window builder raises before any request is sent when the
    base date cannot be read ([ValueError]) and when no day is asked for,
    that is for a number of days of 0 or less ([UnboundLocalError]); it
    never returns an empty window for these inputs. *)
Theorem window_builder_raises_before_fetch location base_date days log :
  (strptime base_date = None ->
   Earlier.fetch_historical_weather http_get py_float strptime strftime
     location base_date days log
   = (Eff.Raise Eff.ValueError, log))
  /\ (forall anchor,
        strptime base_date = Some anchor ->
        (days <= 0)%Z ->
        Earlier.fetch_historical_weather http_get py_float strptime strftime
          location base_date days log
        = (Eff.Raise Eff.UnboundLocalError, log)).
Proof.
  unfold Earlier.fetch_historical_weather,
    Earlier.fetch_historical_weather_of.
  split.
  - intros ->. reflexivity.
  - intros anchor -> Hdays. now rewrite range_nonpositive.
Qed.

(** X17.  Whenever the gateway of the earlier validator returns an
    observation, the gateway of the enhanced validator returns one too, for
    the same request, with the same rainfall and the same humidity; the two
    may differ on the temperature, whose unit token they spell
    differently. *)
Theorem enhanced_gateway_extends_earlier location day log o log' :
  Earlier.get_weather_data http_get py_float location day log
  = (Eff.Ok (Some o), log') ->
  exists o',
    Enhanced.get_weather_data http_get py_float location day log
    = (Eff.Ok (Some o'), log')
    /\ obs_rainfall o' = obs_rainfall o
    /\ obs_humidity o' = obs_humidity o.
Proof.
  unfold Earlier.get_weather_data, Enhanced.get_weather_data, Eff.bind,
    Eff.get.
  destruct (http_get _) as [| | | |data]; try discriminate.
  unfold Earlier.clean, Enhanced._parse_numeric_value, Earlier.get_field,
    Enhanced.get_field.
  destruct (py_float (PyStr.strip (PyStr.split_head "mm" _))) as [r|];
    [|discriminate].
  destruct (py_float (PyStr.strip (PyStr.split_head Earlier.degree_token _)))
    as [t|]; [|discriminate].
  destruct (py_float (PyStr.strip (PyStr.split_head "%" _))) as [h|];
    [|discriminate].
  intros [= <- <-]. eexists. split; [reflexivity|]. split; reflexivity.
Qed.

End BuilderEdges.

Lemma window_builder_raises_before_fetch_witness :
  Earlier.fetch_historical_weather
    Sample.legacy_provider Sample.py_float Sample.strptime Sample.strftime
    "Lagos" "15/01/2024" 3 []
  = (Eff.Raise Eff.ValueError, [])
  /\ Earlier.fetch_historical_weather
       Sample.legacy_provider Sample.py_float Sample.strptime Sample.strftime
       "Lagos" "2024-01-15" 0 []
     = (Eff.Raise Eff.UnboundLocalError, []).
Proof.
  split.
  - exact (proj1 (window_builder_raises_before_fetch
                    Sample.legacy_provider Sample.py_float Sample.strptime
                    Sample.strftime "Lagos" "15/01/2024" 3 [])
                 eq_refl).
  - apply (proj2 (window_builder_raises_before_fetch
                    Sample.legacy_provider Sample.py_float Sample.strptime
                    Sample.strftime "Lagos" "2024-01-15" 0 [])
                 19737%Z).
    + reflexivity.
    + lia.
Defined.

Lemma enhanced_gateway_extends_earlier_witness :
  exists o',
    Enhanced.get_weather_data Sample.legacy_provider Sample.py_float
                              "Lagos" "2024-01-15" []
    = (Eff.Ok (Some o'), [Eff.mkRequest "Lagos" "2024-01-15" 12])
    /\ obs_rainfall o' = 12.3
    /\ obs_humidity o' = 55.
Proof.
  exact (enhanced_gateway_extends_earlier
           Sample.legacy_provider Sample.py_float "Lagos" "2024-01-15" []
           (mkObservation 12.3 18.0 55)
           [Eff.mkRequest "Lagos" "2024-01-15" 12] eq_refl).
Defined.

(** ** Claim extraction *)

Lemma phrase_days_values (text : string) :
  In (ClaimProcessing.phrase_days ClaimProcessing.TIME_PHRASES_TO_DAYS text 7)
     [1%Z; 3%Z; 7%Z; 30%Z].
Proof.
  unfold ClaimProcessing.TIME_PHRASES_TO_DAYS, ClaimProcessing.phrase_days.
  repeat match goal with
         | |- context [if ?b then _ else _] => destruct b
         end; simpl; tauto.
Qed.

(** The days of a one-day phrase are found exactly when the text holds one
    of the first three phrases of the table. *)
Lemma phrase_days_one_day (text : string) :
  (ClaimProcessing.phrase_days ClaimProcessing.TIME_PHRASES_TO_DAYS text 7
   <=? 1)%Z
  = ClaimProcessing.contains "today" text
    || ClaimProcessing.contains "yesterday" text
    || ClaimProcessing.contains "tomorrow" text.
Proof.
  unfold ClaimProcessing.TIME_PHRASES_TO_DAYS, ClaimProcessing.phrase_days.
  repeat match goal with
         | |- context [if ?b then _ else _] => destruct b
         end; reflexivity.
Qed.

Lemma max_phrase_days_at_least_seven (text : string) (month : bool) :
  (7 <= (if month then 30
         else Z.max (ClaimProcessing.phrase_days
                       ClaimProcessing.TIME_PHRASES_TO_DAYS text 7) 7))%Z.
Proof. destruct month; lia. Qed.

Section ExtractionProperties.
Variable strftime : Z -> string.
Variable month_start : Z -> Z.
Variable dateparser : string -> Z -> option Z.
Variable now : Z.
Variable ents : string -> list (string * string).
Variable matcher : string -> list (string * string).

Local Abbreviation extract_claim_details :=
  (ClaimProcessing.extract_claim_details
     strftime month_start dateparser now ents matcher).

(** X20.  Whatever spaCy finds in the text, the number of days of an
    extracted claim is 1, 3, 7 or 30, and it is 7 or 30 when the event
    matched is 'drought': 30 as soon as the text holds the word 'month'. *)
Theorem extracted_days_values (text : string) :
  In (ClaimProcessing.Days (extract_claim_details text)) [1%Z; 3%Z; 7%Z; 30%Z]
  /\ (ClaimProcessing.last_match "EVENT_TYPE" "Other" (matcher text)
      = "drought" ->
      In (ClaimProcessing.Days (extract_claim_details text)) [7%Z; 30%Z]
      /\ (ClaimProcessing.contains "month" (PyStr.lower text) = true ->
          ClaimProcessing.Days (extract_claim_details text) = 30%Z)).
Proof.
  unfold ClaimProcessing.extract_claim_details. cbn [ClaimProcessing.Days].
  pose proof (phrase_days_values (PyStr.lower text)) as Hdays.
  set (days := ClaimProcessing.phrase_days _ _ _) in *.
  split.
  - destruct (PyStr.eqb _ "drought");
      [destruct (_ || _); [simpl; tauto|] | exact Hdays].
    simpl in Hdays. simpl.
    destruct Hdays as [<- | [<- | [<- | [<- | []]]]]; simpl; tauto.
  - intros ->. change (PyStr.eqb "drought" "drought") with true. cbv iota.
    split.
    + destruct (_ || _); [simpl; tauto|].
      simpl in Hdays. simpl.
      destruct Hdays as [<- | [<- | [<- | [<- | []]]]]; simpl; tauto.
    + intros ->. now rewrite orb_true_r.
Qed.

(** X21.  The extractor marks a claim as 'Insufficient Data', with severity
    'Unassessable', exactly when the event matched is 'flood' and the text
    holds 'today', 'yesterday' or 'tomorrow'; a drought claim is never
    marked so, and every other event type is returned as it was matched. *)
Theorem extracted_event_type (text : string) :
  let event_type :=
    ClaimProcessing.last_match "EVENT_TYPE" "Other" (matcher text) in
  let one_day :=
    ClaimProcessing.contains "today" (PyStr.lower text)
    || ClaimProcessing.contains "yesterday" (PyStr.lower text)
    || ClaimProcessing.contains "tomorrow" (PyStr.lower text) in
  (event_type = "drought" ->
   ClaimProcessing.Event_Type (extract_claim_details text) = "drought")
  /\ (event_type = "flood" ->
      ClaimProcessing.Event_Type (extract_claim_details text)
      = (if one_day then "Insufficient Data" else "flood")
      /\ (one_day = true ->
          ClaimProcessing.Severity (extract_claim_details text)
          = "Unassessable"))
  /\ (event_type <> "drought" -> event_type <> "flood" ->
      ClaimProcessing.Event_Type (extract_claim_details text) = event_type).
Proof.
  intros event_type one_day.
  unfold ClaimProcessing.extract_claim_details.
  cbn [ClaimProcessing.Event_Type ClaimProcessing.Severity].
  fold event_type.
  pose proof (phrase_days_values (PyStr.lower text)) as Hdays.
  pose proof (phrase_days_one_day (PyStr.lower text)) as Hone.
  fold one_day in Hone.
  set (days := ClaimProcessing.phrase_days _ _ _) in *.
  split; [|split].
  - intros ->. change (PyStr.eqb "drought" "drought") with true. cbv iota.
    replace ((if _ || _ then 30 else Z.max days 7) <=? 1)%Z with false;
      [reflexivity|].
    symmetry. apply Z.leb_gt.
    match goal with |- context [if ?b then _ else _] => destruct b end; lia.
  - intros ->. change (PyStr.eqb "flood" "drought") with false. cbv iota.
    rewrite Hone.
    change (PyStr.in_list "flood" ["drought"; "flood"]) with true.
    rewrite andb_true_r. split; [reflexivity|]. now intros ->.
  - intros Hd Hf.
    assert (Hin : PyStr.in_list event_type ["drought"; "flood"] = false).
    { rewrite in_list_two. unfold PyStr.eqb.
      destruct (String.eqb_spec event_type "drought"); [contradiction|].
      destruct (String.eqb_spec event_type "flood"); [contradiction|].
      reflexivity. }
    rewrite Hin, andb_false_r. reflexivity.
Qed.

(** X22.  How the validator receives an extracted claim for which a
    location was found: a claim extracted as 'drought' passes validation
    and its analysis period is the days the extractor counted; a claim
    whose event type is not a spelling of 'drought' passes validation too,
    and its analysis period is a single day whatever the extractor counted,
    since the extractor sets no date descriptor. *)
Theorem extracted_claim_reaches_engine (text location : string) :
  let e := extract_claim_details text in
  let c := ClaimProcessing.to_claim_details e location in
  (ClaimProcessing.Event_Type e = "drought" ->
   Enhanced._validate_claim_inputs c = (true, None)
   /\ Enhanced._determine_analysis_period c = ClaimProcessing.Days e)
  /\ (PyStr.lower (ClaimProcessing.Event_Type e) <> "drought" ->
      Enhanced._validate_claim_inputs c = (true, None)
      /\ Enhanced._determine_analysis_period c = 1%Z).
Proof.
  intros e c.
  assert (Hkeys : forallb (Enhanced.has_key c) Enhanced.required_fields = true).
  { unfold c, ClaimProcessing.to_claim_details, Enhanced.required_fields,
      Enhanced.has_key. simpl.
    rewrite !bool_decide_eq_true_2; [reflexivity|..];
      simplify_map_eq; eauto. }
  assert (Hevent : Enhanced.get_str c "Event Type" = ClaimProcessing.Event_Type e).
  { unfold c, ClaimProcessing.to_claim_details, Enhanced.get_str. simpl.
    now simplify_map_eq. }
  assert (Hdescr : Enhanced.get_str c "Date Descriptor" = "").
  { unfold c, ClaimProcessing.to_claim_details, Enhanced.get_str. simpl.
    now simplify_map_eq. }
  assert (Hdays : Enhanced.Days c = Some (ClaimProcessing.Days e))
    by reflexivity.
  unfold Enhanced._validate_claim_inputs, Enhanced._determine_analysis_period.
  rewrite Hkeys, Hevent, Hdescr, Hdays. cbn [negb default]. unfold id.
  split.
  - intro Hdrought.
    assert (Hseven : (7 <= ClaimProcessing.Days e)%Z).
    { revert Hdrought. unfold e, ClaimProcessing.extract_claim_details.
      cbn [ClaimProcessing.Event_Type ClaimProcessing.Days].
      destruct (PyStr.eqb (ClaimProcessing.last_match _ _ _) "drought")
        eqn:Hmatch.
      - intros _. apply max_phrase_days_at_least_seven.
      - destruct (_ && _); [discriminate|]. intros Heq.
        rewrite Heq in Hmatch. discriminate. }
    rewrite Hdrought.
    change (PyStr.eqb (PyStr.lower "drought") Enhanced.DROUGHT) with true.
    cbn [andb]. change (PyStr.lower "") with "".
    change (PyStr.eqb "" "this month") with false. cbv iota.
    unfold Enhanced.MIN_DROUGHT_DAYS.
    replace (ClaimProcessing.Days e <? 7)%Z with false
      by (symmetry; apply Z.ltb_ge; lia).
    split; [reflexivity | lia].
  - intro Hother.
    replace (PyStr.eqb (PyStr.lower (ClaimProcessing.Event_Type e))
                       Enhanced.DROUGHT) with false.
    + split; reflexivity.
    + symmetry. unfold PyStr.eqb, Enhanced.DROUGHT.
      now apply String.eqb_neq.
Qed.

End ExtractionProperties.

Lemma extracted_days_values_witness :
  In (ClaimProcessing.Days
        (ClaimProcessing.extract_claim_details
           Sample.strftime Sample.month_start Sample.dateparser 19737
           Sample.ents Sample.matcher Sample.drought_text))
     [7%Z; 30%Z].
Proof.
  apply (proj2 (extracted_days_values
                  Sample.strftime Sample.month_start Sample.dateparser 19737
                  Sample.ents Sample.matcher Sample.drought_text)).
  reflexivity.
Defined.

Lemma extracted_event_type_witness :
  ClaimProcessing.Event_Type
    (ClaimProcessing.extract_claim_details
       Sample.strftime Sample.month_start Sample.dateparser 19737
       Sample.ents Sample.matcher Sample.flood_text)
  = "Insufficient Data".
Proof.
  apply (proj1 (proj2 (extracted_event_type
                         Sample.strftime Sample.month_start Sample.dateparser
                         19737 Sample.ents Sample.matcher Sample.flood_text))).
  reflexivity.
Defined.

Lemma extracted_claim_reaches_engine_witness :
  Enhanced._determine_analysis_period
    (ClaimProcessing.to_claim_details
       (ClaimProcessing.extract_claim_details
          Sample.strftime Sample.month_start Sample.dateparser 19737
          Sample.ents Sample.matcher Sample.drought_text)
       "Kano")
  = 7%Z.
Proof.
  apply (proj1 (extracted_claim_reaches_engine
                  Sample.strftime Sample.month_start Sample.dateparser 19737
                  Sample.ents Sample.matcher Sample.drought_text "Kano")).
  reflexivity.
Defined.

(** ** The weather API *)

Lemma lstrip_no_space (s : string) :
  (forall c, In c (list_ascii_of_string s) -> PyStr.is_space c = false) ->
  PyStr.lstrip s = s.
Proof.
  destruct s as [|c s]; [reflexivity|]. intro H. simpl.
  now rewrite (H c) by now left.
Qed.

Lemma rstrip_no_space (s : string) :
  (forall c, In c (list_ascii_of_string s) -> PyStr.is_space c = false) ->
  PyStr.rstrip s = s.
Proof.
  induction s as [|c s IH]; [reflexivity|]. intro H.
  simpl. rewrite IH by (intros c' Hc'; apply H; now right).
  destruct s; [|reflexivity]. now rewrite (H c) by now left.
Qed.

Lemma rstrip_trailing_space (s : string) :
  (forall c, In c (list_ascii_of_string s) -> PyStr.is_space c = false) ->
  PyStr.rstrip (s ++ " ") = s.
Proof.
  induction s as [|c s IH]; [reflexivity|]. intro H.
  change (String c s ++ " ") with (String c (s ++ " ")).
  cbn [PyStr.rstrip]. rewrite IH by (intros c' Hc'; apply H; now right).
  destruct s; [|reflexivity]. now rewrite (H c) by now left.
Qed.

Lemma strip_no_space (s : string) :
  (forall c, In c (list_ascii_of_string s) -> PyStr.is_space c = false) ->
  PyStr.strip s = s.
Proof.
  intro H. unfold PyStr.strip.
  now rewrite lstrip_no_space, rstrip_no_space.
Qed.

Lemma strip_trailing_space (s : string) :
  (forall c, In c (list_ascii_of_string s) -> PyStr.is_space c = false) ->
  PyStr.strip (s ++ " ") = s.
Proof.
  intro H. unfold PyStr.strip. destruct s as [|c s]; [reflexivity|].
  rewrite <- (rstrip_trailing_space (String c s) H) at 2. f_equal.
  change (String c s ++ " ") with (String c (s ++ " ")). simpl.
  now rewrite (H c) by now left.
Qed.

Lemma in_app_string (c : ascii) (s t : string) :
  In c (list_ascii_of_string (s ++ t)) ->
  In c (list_ascii_of_string s) \/ In c (list_ascii_of_string t).
Proof.
  induction s as [|d s IH]; simpl; [tauto|].
  intros [-> | Hin]; [tauto|]. destruct (IH Hin); tauto.
Qed.

Section ApiProperties.
Variable py_float : string -> option Q.
Variable py_repr : Api.json -> string.
Variable describe : Api.failure -> string.
Variable weatherapi : string -> string -> string -> Api.upstream.

(** The three readings of a formatted weather are read back by the
    gateway of the validator as the numbers they were formatted from. *)
Lemma rainfall_read_back (text : string) :
  Api.numeral text ->
  Enhanced._parse_numeric_value py_float (text ++ " mm") "mm"
  = default 0 (py_float text).
Proof.
  intro Hnum. unfold Enhanced._parse_numeric_value.
  assert (Hsplit : PyStr.split_head "mm" (text ++ " mm") = text ++ " ").
  { transitivity (PyStr.split_head "mm" ((text ++ " ") ++ "mm" ++ "")).
    { f_equal. clear. induction text as [|c text IH]; [reflexivity|].
      change (String c (text ++ " mm")
              = String c ((text ++ " ") ++ "mm" ++ "")).
      now f_equal. }
    apply (split_head_at_token (text ++ " ") "" "m" "m").
    intros c Hc. apply in_app_string in Hc as [Hc | Hc].
    - now apply Hnum.
    - simpl in Hc. destruct Hc as [<- | []]. discriminate. }
  rewrite Hsplit.
  rewrite strip_trailing_space by (intros c Hc; now apply Hnum).
  now destruct (py_float text).
Qed.

Lemma unit_read_back (text rest : string) (u : ascii) :
  Api.numeral text ->
  (forall c, In c (list_ascii_of_string text) -> c <> u) ->
  Enhanced._parse_numeric_value py_float
    (text ++ String u rest) (String u EmptyString)
  = default 0 (py_float text).
Proof.
  intros Hnum Hfree. unfold Enhanced._parse_numeric_value.
  change (String u rest) with (String u EmptyString ++ rest).
  rewrite (split_head_at_token text rest u EmptyString) by exact Hfree.
  rewrite strip_no_space by (intros c Hc; now apply Hnum).
  now destruct (py_float text).
Qed.

Lemma format_weather_readings wd w :
  Api.format_weather py_repr wd = Api.Done w ->
  exists precip temp hum,
    Api.rainfall w = Api.py_str py_repr precip ++ " mm"
    /\ Api.temperature w = Api.py_str py_repr temp ++ Api.degree ++ "C"
    /\ Api.humidity w = Api.py_str py_repr hum ++ "%".
Proof.
  unfold Api.format_weather, Api.and_then.
  repeat match goal with
         | |- context [match ?r with Api.Done _ => _ | Api.Failed _ => _ end] =>
             destruct r; [|discriminate]
         end.
  intros [= <-]. cbn [Api.rainfall Api.temperature Api.humidity].
  now eexists _, _, _.
Qed.

(** X23.  The readings of a weather formatted by the view are read back by
    the gateway of the validator: its rainfall, temperature and humidity
    are values of the hour data followed by their units, and whenever such
    a value spells a number the gateway reads that very number from the
    formatted text. *)
Theorem view_readings_read_back wd w :
  Api.display_weather py_repr describe wd = Api.ViewWeather w ->
  exists precip temp hum,
    Api.rainfall w = Api.py_str py_repr precip ++ " mm"
    /\ Api.temperature w = Api.py_str py_repr temp ++ Api.degree ++ "C"
    /\ Api.humidity w = Api.py_str py_repr hum ++ "%"
    /\ (Api.numeral (Api.py_str py_repr precip) ->
        Enhanced._parse_numeric_value py_float (Api.rainfall w) "mm"
        = default 0 (py_float (Api.py_str py_repr precip)))
    /\ (Api.numeral (Api.py_str py_repr temp) ->
        Enhanced._parse_numeric_value py_float (Api.temperature w)
                                      Enhanced.degree_token
        = default 0 (py_float (Api.py_str py_repr temp)))
    /\ (Api.numeral (Api.py_str py_repr hum) ->
        Enhanced._parse_numeric_value py_float (Api.humidity w) "%"
        = default 0 (py_float (Api.py_str py_repr hum))).
Proof.
  unfold Api.display_weather.
  destruct (wd !! "error"); [discriminate|].
  destruct (Api.format_weather py_repr wd) as [w'|f] eqn:Hformat;
    [|discriminate].
  intros [= <-].
  destruct (format_weather_readings wd w' Hformat)
    as [precip [temp [hum [Hr [Ht Hh]]]]].
  exists precip, temp, hum. rewrite Hr, Ht, Hh.
  repeat split.
  - apply rainfall_read_back.
  - intro Hnum.
    change (Api.py_str py_repr temp ++ Api.degree ++ "C")
      with (Api.py_str py_repr temp
            ++ String "194" (String "176" EmptyString) ++ "C").
    unfold Enhanced._parse_numeric_value, Enhanced.degree_token.
    rewrite (split_head_at_token (Api.py_str py_repr temp) "C" "194"
               (String "176" EmptyString))
      by (intros c Hc; now apply Hnum).
    rewrite strip_no_space by (intros c Hc; now apply Hnum).
    now destruct (py_float _).
  - intro Hnum. apply unit_read_back; [exact Hnum|].
    intros c Hc. now apply Hnum.
Qed.

(** X24.  A body without the keys 'error' and 'forecast' is no error for
    the view: it answers the weather made of the defaults alone, an empty
    time and condition, the bare degree sign for both temperatures, and
    zero rainfall, chance of rain, wind, humidity, UV index and cloud. *)
Theorem view_defaults_without_forecast (wd : gmap string Api.json) :
  wd !! "error" = None ->
  wd !! "forecast" = None ->
  Api.display_weather py_repr describe wd
  = Api.ViewWeather
      {| Api.time := Api.JStr "";
         Api.temperature := Api.degree ++ "C";
         Api.feels_like := Api.degree ++ "C";
         Api.rainfall := "0.0 mm";
         Api.chance_of_rain := "0%";
         Api.wind_speed := "0.0 kph";
         Api.humidity := "0%";
         Api.uv_index := Api.JNum "0.0";
         Api.cloud_cover := "0%";
         Api.condition := Api.JStr "";
         Api.condition_icon_url := Api.JStr "" |}.
Proof.
  intros Herror Hforecast.
  unfold Api.display_weather, Api.format_weather.
  rewrite Herror, Hforecast. reflexivity.
Qed.

(** X25.  A failure of the upstream request is answered by the route with
    status 400 and its text after 'Failed to fetch data: '; the view adds
    nothing to it. *)
Theorem upstream_failure_answers_400 (args : gmap string string) text :
  weatherapi (default "Kano" (args !! "location"))
             (default "2024-01-01" (args !! "date"))
             (default "14" (args !! "hour")) = Api.UpFailed text ->
  Api.get_weather py_repr describe weatherapi args
  = (400%Z, Api.ViewError (Api.JStr ("Failed to fetch data: " ++ text))).
Proof.
  intro Hup.
  unfold Api.get_weather, Api.controller_get_weather, Api.fetch_weather_data.
  cbv zeta. rewrite Hup. unfold Api.display_weather.
  now rewrite lookup_singleton.
Qed.

(** X26.  A body that the upstream service delivered without error but
    with an empty list of forecast days is answered by the route with
    status 400, the status of a wrong request, and the text of the index
    error after 'Error formatting weather data: '. *)
Theorem empty_forecast_answers_400 (args : gmap string string) body f :
  weatherapi (default "Kano" (args !! "location"))
             (default "2024-01-01" (args !! "date"))
             (default "14" (args !! "hour")) = Api.UpBody body ->
  body !! "error" = None ->
  body !! "forecast" = Some (Api.JObj f) ->
  f !! "forecastday" = Some (Api.JList []) ->
  Api.get_weather py_repr describe weatherapi args
  = (400%Z,
     Api.ViewError
       (Api.JStr ("Error formatting weather data: "
                  ++ describe (Api.IndexOutOfRange (Api.JList []))))).
Proof.
  intros Hup Herror Hforecast Hdays.
  unfold Api.get_weather, Api.controller_get_weather, Api.fetch_weather_data.
  cbv zeta. rewrite Hup.
  unfold Api.display_weather, Api.format_weather.
  rewrite Herror, Hforecast. cbn [default from_option id Api.get Api.and_then].
  rewrite Hdays. reflexivity.
Qed.

End ApiProperties.

Lemma view_readings_read_back_witness :
  exists precip temp hum,
    Api.rainfall ApiSample.formatted
    = Api.py_str ApiSample.py_repr precip ++ " mm"
    /\ Api.temperature ApiSample.formatted
       = Api.py_str ApiSample.py_repr temp ++ Api.degree ++ "C"
    /\ Api.humidity ApiSample.formatted
       = Api.py_str ApiSample.py_repr hum ++ "%"
    /\ (Api.numeral (Api.py_str ApiSample.py_repr precip) ->
        Enhanced._parse_numeric_value Sample.py_float
          (Api.rainfall ApiSample.formatted) "mm"
        = default 0 (Sample.py_float (Api.py_str ApiSample.py_repr precip)))
    /\ (Api.numeral (Api.py_str ApiSample.py_repr temp) ->
        Enhanced._parse_numeric_value Sample.py_float
          (Api.temperature ApiSample.formatted) Enhanced.degree_token
        = default 0 (Sample.py_float (Api.py_str ApiSample.py_repr temp)))
    /\ (Api.numeral (Api.py_str ApiSample.py_repr hum) ->
        Enhanced._parse_numeric_value Sample.py_float
          (Api.humidity ApiSample.formatted) "%"
        = default 0 (Sample.py_float (Api.py_str ApiSample.py_repr hum))).
Proof.
  exact (view_readings_read_back Sample.py_float ApiSample.py_repr
           ApiSample.describe ApiSample.body ApiSample.formatted eq_refl).
Defined.

Lemma view_defaults_without_forecast_witness :
  Api.display_weather ApiSample.py_repr ApiSample.describe
    {["location" := Api.JObj ∅]}
  = Api.ViewWeather
      (Api.mkWeather (Api.JStr "") (Api.degree ++ "C") (Api.degree ++ "C")
         "0.0 mm" "0%" "0.0 kph" "0%" (Api.JNum "0.0") "0%" (Api.JStr "")
         (Api.JStr "")).
Proof.
  apply (view_defaults_without_forecast ApiSample.py_repr ApiSample.describe
           {["location" := Api.JObj ∅]}); reflexivity.
Defined.

Lemma upstream_failure_answers_400_witness :
  Api.get_weather ApiSample.py_repr ApiSample.describe ApiSample.weatherapi
    {["location" := "Jos"]}
  = (400%Z,
     Api.ViewError (Api.JStr "Failed to fetch data: 400 Client Error")).
Proof.
  exact (upstream_failure_answers_400 ApiSample.py_repr ApiSample.describe
           ApiSample.weatherapi {["location" := "Jos"]} "400 Client Error"
           eq_refl).
Defined.

Lemma empty_forecast_answers_400_witness :
  Api.get_weather ApiSample.py_repr ApiSample.describe
    (fun _ _ _ =>
       Api.UpBody
         {["forecast" := Api.JObj {["forecastday" := Api.JList []]}]})
    ∅
  = (400%Z,
     Api.ViewError
       (Api.JStr "Error formatting weather data: list index out of range")).
Proof.
  exact (empty_forecast_answers_400 ApiSample.py_repr ApiSample.describe
           (fun _ _ _ =>
              Api.UpBody
                {["forecast" := Api.JObj {["forecastday" := Api.JList []]}]})
           ∅ _ _ eq_refl eq_refl eq_refl eq_refl).
Defined.
